(** * pymodbus serial clients: transport, timing and reconnect logic

    A shallow embedding of [pymodbus/client/serial.py] (the blocking
    [ModbusSerialClient] and the asyncio [AsyncModbusSerialClient]) and of
    the generic dispatch entry point of [pymodbus/client/mixin.py].

    - Python floats are IEEE binary64 numbers: Rocq's primitive floats.
    - Python integers are [Z].
    - Byte strings are [list byte].
    - Methods that mutate [self] or perform I/O are written in a small
      state-and-exception monad over the client and its serial port.
    - The asyncio client is a transition system whose events are the
      atomic segments the event loop runs between two suspension points. *)

From Stdlib Require Import ZArith Lia Bool List String.
From Stdlib Require Import PrimFloat FloatOps SpecFloat FloatAxioms Uint63.
From stdpp Require Import base list.
Import ListNotations.
Open Scope Z_scope.

(** * Python's float operations *)

Module PyFloat.

(** [n / d] rounded to the nearest integer, ties to the even one
    ([0 <= n], [0 < d]). *)
Definition round_half_even (n d : Z) : Z :=
  let (q, r) := Z.div_eucl n d in
  match (2 * r ?= d) with
  | Lt => q
  | Gt => q + 1
  | Eq => if Z.even q then q else q + 1
  end.

(** The binary64 number nearest to the rational [n / d], ties to even
    ([0 <= n], [0 < d]); infinity when the quotient is beyond the largest
    double.  This is what converting a decimal literal or a Python [int]
    to [float] computes. *)
Definition nearest_double (n d : Z) : float :=
  if n =? 0 then 0%float
  else
    let e0 := Z.log2 n - Z.log2 d - 52 in
    let below := if 0 <=? e0 then n <? 2 ^ 52 * (d * 2 ^ e0)
                 else n * 2 ^ (- e0) <? 2 ^ 52 * d in
    let e := Z.max (if below then e0 - 1 else e0) (-1074) in
    let m := if 0 <=? e then round_half_even n (d * 2 ^ e)
             else round_half_even (n * 2 ^ (- e)) d in
    Z.ldexp (PrimFloat.of_uint63 (Uint63.of_Z m)) e.

(** [float(z)] for a Python [int]; [None] stands for [OverflowError]. *)
Definition float_of_int (z : Z) : option float :=
  let r := nearest_double (Z.abs z) 1 in
  if PrimFloat.is_infinity r then None
  else Some (if z <? 0 then PrimFloat.opp r else r).

(** [round(x, ndigits)] for a float [x] and [0 <= ndigits]: the exact
    binary value of [x] is rounded half-to-even to [ndigits] decimals, and
    the decimal obtained is converted back to the nearest double.  Zeros,
    infinities and NaN round to themselves. *)
Definition round (x : float) (ndigits : nat) : float :=
  match Prim2SF x with
  | S754_finite s m e =>
      let scale := 10 ^ Z.of_nat ndigits in
      let k := if 0 <=? e then Z.pos m * 2 ^ e * scale
               else round_half_even (Z.pos m * scale) (2 ^ (- e)) in
      let r := nearest_double k scale in
      if s then PrimFloat.opp r else r
  | _ => x
  end.

(** [max(a, b)] on floats: the first argument unless the second is
    strictly greater. *)
Definition max (a b : float) : float :=
  if PrimFloat.ltb a b then b else a.

(** A value is stored with microsecond precision when rounding it to six
    decimals gives it back. *)
Definition microsecond_precision (v : float) : Prop := round v 6 = v.

End PyFloat.

(** * Exceptions and results *)

(** Modelled from the spec: the framer classes live outside the two source
    files; the spec names the RTU, ASCII and socket framings. *)
Inductive Framer := ModbusRtuFramer | ModbusAsciiFramer | ModbusSocketFramer.

Definition is_rtu (f : Framer) : bool :=
  match f with ModbusRtuFramer => true | _ => false end.

(** Modelled from the spec: [ModbusTransactionState] is declared in
    [pymodbus/utilities.py], outside the sources; the spec lists the
    phases Idle, Sending and Retrying. *)
Inductive ModbusTransactionState := IDLE | SENDING | RETRYING.

Definition state_eqb (a b : ModbusTransactionState) : bool :=
  match a, b with
  | IDLE, IDLE | SENDING, SENDING | RETRYING, RETRYING => true
  | _, _ => false
  end.

(** Modelled from the spec: the text behind the constant [INTERNAL_ERROR]
    is in [pymodbus/constants.py], outside the sources; the constructor
    stands for it. *)
Inductive ErrorText : Set := INTERNAL_ERROR.

Inductive exn :=
| ConnectionException (framer : Framer) (baud : Z)
| ModbusException (msg : ErrorText)
| NotImplementedError
| AttributeError
| ZeroDivisionError
| OverflowError.

Inductive result (A : Type) :=
| Return (a : A)
| Raise (e : exn).
Arguments Return {A} a.
Arguments Raise {A} e.

(** * The generic dispatch base *)

Module ModbusClientMixin.

(** Modelled from the spec: the PDU classes are outside the sources; a
    request is a value of one of the request kinds, with its fields and
    the unit it addresses.  The kinds listed are those of the first
    convenience operations, and a request with a user-defined function
    code. *)
Inductive ModbusRequest :=
| ReadCoilsRequest (address count slave : Z)
| ReadDiscreteInputsRequest (address count slave : Z)
| ReadHoldingRegistersRequest (address count slave : Z)
| ReadInputRegistersRequest (address count slave : Z)
| WriteSingleCoilRequest (address : Z) (value : bool) (slave : Z)
| WriteSingleRegisterRequest (address value slave : Z)
| ReadExceptionStatusRequest (slave : Z)
| ReturnQueryDataRequest (msg : list Byte.byte) (slave : Z)
| CustomRequest (function_code : Z) (data : list Byte.byte) (slave : Z).

Inductive ModbusResponse :=
| Response (function_code : Z) (data : list Byte.byte)
| ExceptionResponse (function_code exception_code : Z).

(** The mixin has no attributes of its own. *)
Inductive t : Set := Mixin.

(** [ModbusClientMixin.execute]. *)
Definition execute (self : t) (request : ModbusRequest) : result ModbusResponse :=
  Raise (ModbusException INTERNAL_ERROR).

(** What [self.execute] resolves to in a class built on the mixin. *)
Class Dispatch (C : Type) := {
  self_execute : C -> ModbusRequest -> result ModbusResponse
}.

(** The mixin on its own: nothing overrides [execute]. *)
#[export] Instance unextended : Dispatch t := {| self_execute := execute |}.

Section Operations.
Context {C : Type} `{Dispatch C}.

Definition read_coils (self : C) (address count slave : Z) :=
  self_execute self (ReadCoilsRequest address count slave).

Definition read_discrete_inputs (self : C) (address count slave : Z) :=
  self_execute self (ReadDiscreteInputsRequest address count slave).

Definition read_holding_registers (self : C) (address count slave : Z) :=
  self_execute self (ReadHoldingRegistersRequest address count slave).

Definition read_input_registers (self : C) (address count slave : Z) :=
  self_execute self (ReadInputRegistersRequest address count slave).

Definition write_coil (self : C) (address : Z) (value : bool) (slave : Z) :=
  self_execute self (WriteSingleCoilRequest address value slave).

Definition write_register (self : C) (address value slave : Z) :=
  self_execute self (WriteSingleRegisterRequest address value slave).

Definition read_exception_status (self : C) (slave : Z) :=
  self_execute self (ReadExceptionStatusRequest slave).

Definition diag_query_data (self : C) (msg : list Byte.byte) (slave : Z) :=
  self_execute self (ReturnQueryDataRequest msg slave).

End Operations.

End ModbusClientMixin.

(** * The blocking client *)

Module ModbusSerialClient.

Record Params := {
  port : string;
  baudrate : Z;
  bytesize : Z;
  parity : string;
  stopbits : Z;
  handle_local_echo : bool;
  timeout : option Z   (* milliseconds; [None] is Python's [None] *)
}.

(** The pyserial port object behind [self.socket]: the bytes waiting in its
    receive buffer, the bytes written to the line so far, the bursts that
    will arrive (one per 10 ms poll interval), and whether the port
    implements [in_waiting] at all. *)
Record Serial := {
  rx : list Byte.byte;
  tx : list Byte.byte;
  arrivals : list (list Byte.byte);
  has_in_waiting : bool
}.

Record t := {
  params : Params;
  framer : Framer;
  socket : option Serial;
  state : ModbusTransactionState;
  last_frame_end : option float;
  _t0 : option float;
  inter_char_timeout : float;
  silent_interval : float
}.

(** [float((1 + 8 + 2)) / baudrate], with the exceptions of Python's
    float-by-int division. *)
Definition char_time (baudrate : Z) : result float :=
  match PyFloat.float_of_int baudrate with
  | None => Raise OverflowError
  | Some fb =>
      if PrimFloat.eqb fb 0 then Raise ZeroDivisionError
      else Return (PrimFloat.div 11 fb)
  end.

(** [ModbusSerialClient.__init__]; the keyword arguments consumed by the
    base class reduce here to the request timeout. *)
Definition init (port : string) (framer : Framer) (baudrate bytesize : Z)
    (parity : string) (stopbits : Z) (handle_local_echo : bool)
    (timeout : option Z) : result t :=
  let p := {| port := port; baudrate := baudrate; bytesize := bytesize;
              parity := parity; stopbits := stopbits;
              handle_local_echo := handle_local_echo; timeout := timeout |} in
  let self := {| params := p; framer := framer; socket := None; state := IDLE;
                 last_frame_end := None; _t0 := None;
                 inter_char_timeout := 0; silent_interval := 0 |} in
  if is_rtu framer then
    if 19200 <? baudrate then
      Return {| params := p; framer := framer; socket := None; state := IDLE;
                last_frame_end := None; _t0 := None;
                inter_char_timeout := 0;
                silent_interval := PyFloat.round (1.75 / 1000) 6 |}
    else
      match char_time baudrate with
      | Raise e => Raise e
      | Return t0 =>
          Return {| params := p; framer := framer; socket := None;
                    state := IDLE; last_frame_end := None; _t0 := Some t0;
                    inter_char_timeout := 1.5 * t0;
                    silent_interval := PyFloat.round (3.5 * t0) 6 |}
      end
  else Return self.

(** The client together with the wall clock (milliseconds). *)
Record World := { self : t; clock : Z }.

Definition with_socket (s : option Serial) (c : t) : t :=
  {| params := params c; framer := framer c; socket := s; state := state c;
     last_frame_end := last_frame_end c; _t0 := _t0 c;
     inter_char_timeout := inter_char_timeout c;
     silent_interval := silent_interval c |}.

Definition with_state (st : ModbusTransactionState) (c : t) : t :=
  {| params := params c; framer := framer c; socket := socket c; state := st;
     last_frame_end := last_frame_end c; _t0 := _t0 c;
     inter_char_timeout := inter_char_timeout c;
     silent_interval := silent_interval c |}.

(** ** State, exceptions and fuel

    A computation maps the world to an outcome and the world it leaves;
    [None] means the fuel of a polling loop ran out before it returned.
    A raised exception keeps the mutations made before it. *)
Definition M (A : Type) : Type := World -> option (result A * World).

Definition ret {A} (a : A) : M A := fun w => Some (Return a, w).
Definition raise {A} (e : exn) : M A := fun w => Some (Raise e, w).
Definition out_of_fuel {A} : M A := fun _ => None.

Definition bind {A B} (m : M A) (k : A -> M B) : M B :=
  fun w =>
    match m w with
    | None => None
    | Some (Raise e, w') => Some (Raise e, w')
    | Some (Return a, w') => k a w'
    end.

Notation "'do' x <- m ; k" := (bind m (fun x => k))
  (at level 10, x name, m at level 100, k at level 200, only parsing).

(** [try: m except NotImplementedError: pass], for a body that produces an
    optional early return value. *)
Definition try_except_NotImplementedError {A} (m : M (option A)) : M (option A) :=
  fun w =>
    match m w with
    | Some (Raise NotImplementedError, w') => Some (Return None, w')
    | r => r
    end.

Definition get_self : M t := fun w => Some (Return (self w), w).
Definition put_self (c : t) : M unit :=
  fun w => Some (Return tt, {| self := c; clock := clock w |}).

(** ** The inherited hooks *)

(** Modelled from the spec: [send] and [recv] start by calling the method
    of the same name of [ModbusBaseClient], whose body is outside the
    sources and whose return value they drop.  By the ownership rule of the
    spec the transaction state is all such a hook can affect; what it does
    to that state is a parameter of the development. *)
Class ModbusBaseClient := {
  super_send : list Byte.byte -> ModbusTransactionState -> ModbusTransactionState;
  super_recv : option Z -> ModbusTransactionState -> ModbusTransactionState
}.

(** ** The serial port and the clock *)

(** [serial.Serial.in_waiting]. *)
Definition socket_in_waiting (s : Serial) : result Z :=
  if has_in_waiting s then Return (Z.of_nat (length (rx s)))
  else Raise NotImplementedError.

(** [serial.Serial.read(size)]: hands out the first [size] buffered bytes.
    The callers below never ask for more than the buffer holds, so waiting
    for missing bytes is left out. *)
Definition socket_read (size : Z) : M (list Byte.byte) :=
  do c <- get_self ;
  match socket c with
  | None => raise AttributeError
  | Some s =>
      let n := Z.to_nat size in
      do _ <- put_self (with_socket (Some {| rx := drop n (rx s); tx := tx s;
                                          arrivals := arrivals s;
                                          has_in_waiting := has_in_waiting s |}) c) ;
      ret (take n (rx s))
  end.

(** [serial.Serial.write(data)]: puts the bytes on the line and returns
    their number. *)
Definition socket_write (data : list Byte.byte) : M Z :=
  do c <- get_self ;
  match socket c with
  | None => raise AttributeError
  | Some s =>
      do _ <- put_self (with_socket (Some {| rx := rx s; tx := tx s ++ data;
                                          arrivals := arrivals s;
                                          has_in_waiting := has_in_waiting s |}) c) ;
      ret (Z.of_nat (length data))
  end.

Definition time_time : M Z := fun w => Some (Return (clock w), w).

(** One burst of the line reaches the receive buffer. *)
Definition deliver (s : Serial) : Serial :=
  match arrivals s with
  | [] => s
  | burst :: later =>
      {| rx := rx s ++ burst; tx := tx s; arrivals := later;
         has_in_waiting := has_in_waiting s |}
  end.

(** [time.sleep(0.01)]: ten milliseconds pass, during which the next burst
    arrives. *)
Definition time_sleep_10ms : M unit :=
  fun w =>
    Some (Return tt,
          {| self := with_socket (option_map deliver (socket (self w))) (self w);
             clock := clock w + 10 |}).

Section Methods.
Context `{Base : ModbusBaseClient}.

Definition call_super_send (request : list Byte.byte) : M unit :=
  do c <- get_self ; put_self (with_state (super_send request (state c)) c).

Definition call_super_recv (size : option Z) : M unit :=
  do c <- get_self ; put_self (with_state (super_recv size (state c)) c).

Definition connection_exception {A} : M A :=
  do c <- get_self ; raise (ConnectionException (framer c) (baudrate (params c))).

(** [ModbusSerialClient.close]. *)
Definition close : M unit :=
  do c <- get_self ; put_self (with_socket None c).

(** [ModbusSerialClient._in_waiting]; [in_waiting] and [inWaiting()] are the
    two spellings of one pyserial query. *)
Definition _in_waiting : M Z :=
  do c <- get_self ;
  match socket c with
  | None => raise AttributeError
  | Some s =>
      match socket_in_waiting s with
      | Return n => ret n
      | Raise e => raise e
      end
  end.

(** The values [send] can return: the stale bytes, or a byte count. *)
Inductive sent := Bytes (data : list Byte.byte) | Int (n : Z).

(** [ModbusSerialClient.send]. *)
Definition send (request : list Byte.byte) : M sent :=
  do _ <- call_super_send request ;
  do c <- get_self ;
  match socket c with
  | None => connection_exception
  | Some _ =>
      match request with
      | _ :: _ =>
          do early <- try_except_NotImplementedError (
            do waitingbytes <- _in_waiting ;
            if negb (waitingbytes =? 0) then
              do result <- socket_read waitingbytes ;
              do c <- get_self ;
              if state_eqb (state c) RETRYING then ret (Some result)
              else ret None
            else ret None) ;
          match early with
          | Some result => ret (Bytes result)
          | None =>
              do c <- get_self ;
              do _ <- (if negb (state_eqb (state c) SENDING)
                    then put_self (with_state SENDING c) else ret tt) ;
              do size <- socket_write request ;
              ret (Int size)
          end
      | [] => ret (Int 0)
      end
  end.

(** The loop of [_wait_for_data]: [start] is the clock value read before
    the loop, [size] and [more_data] are its two variables. *)
Fixpoint wait_loop (fuel : nat) (start size : Z) (more_data : bool) : M Z :=
  match fuel with
  | O => out_of_fuel
  | S fuel' =>
      do c <- get_self ;
      do now <- time_time ;
      let condition :=
        match timeout (params c) with
        | Some t => if t =? 0 then true else now - start <=? t
        | None => true
        end in
      if condition then
        do available <- _in_waiting ;
        if (more_data && (available =? 0)) || (more_data && (available =? size))
        then ret size
        else
          let grew := negb (available =? 0) && negb (available =? size) in
          do _ <- time_sleep_10ms ;
          wait_loop fuel' start (if grew then available else size)
                    (if grew then true else more_data)
      else ret size
  end.

(** [ModbusSerialClient._wait_for_data]. *)
Definition _wait_for_data (fuel : nat) : M Z :=
  do start <- time_time ;
  wait_loop fuel start 0 false.

(** [ModbusSerialClient.recv]; [size = None] is Python's [None]. *)
Definition recv (fuel : nat) (size : option Z) : M (list Byte.byte) :=
  do _ <- call_super_recv size ;
  do c <- get_self ;
  match socket c with
  | None => connection_exception
  | Some _ =>
      do size <- match size with
              | None => _wait_for_data fuel
              | Some n => ret n
              end ;
      do waiting <- _in_waiting ;
      do size <- (if waiting <? size then _wait_for_data fuel else ret size) ;
      socket_read size
  end.

End Methods.

(** ** Sample worlds *)

(** A base class whose hooks leave the transaction state alone. *)
Definition inert_base : ModbusBaseClient :=
  {| super_send := fun _ st => st; super_recv := fun _ st => st |}.

(** A base class whose [send] hook opens the transaction: it moves the
    state to Sending unless a retry is under way. *)
Definition sending_base : ModbusBaseClient :=
  {| super_send := fun _ st => match st with RETRYING => RETRYING | _ => SENDING end;
     super_recv := fun _ st => st |}.

Definition sample_params : Params :=
  {| port := "/dev/ttyUSB0"; baudrate := 9600; bytesize := 8; parity := "N";
     stopbits := 1; handle_local_echo := false; timeout := Some 3000 |}.

Definition sample_client (st : ModbusTransactionState) (s : option Serial) : t :=
  {| params := sample_params; framer := ModbusRtuFramer; socket := s;
     state := st; last_frame_end := None; _t0 := None;
     inter_char_timeout := 0; silent_interval := 0 |}.

Definition port_with (buffered : list Byte.byte)
    (bursts : list (list Byte.byte)) : Serial :=
  {| rx := buffered; tx := []; arrivals := bursts; has_in_waiting := true |}.

(** One byte buffered, a burst of four more about to arrive. *)
Definition burst_world : World :=
  {| self := sample_client IDLE
               (Some (port_with [Byte.x01]
                        [[Byte.x02; Byte.x03; Byte.x04; Byte.x05]]));
     clock := 0 |}.




(** ** Timing governor: the expected values *)

(** [f] holds on the [n] integers from [lo] upwards. *)
Fixpoint forall_from (f : Z -> bool) (lo : Z) (n : nat) : bool :=
  match n with
  | O => true
  | S n' => f lo && forall_from f (lo + 1) n'
  end.

(** The double written [0.00175] in Python ([1.75 / 1000] evaluates to it). *)
Definition ms_1_75 : float := 0x1.cac083126e979p-10%float.

(** The baud rate as a float; exact below [2 ^ 53]. *)
Definition baud (b : Z) : float := PrimFloat.of_uint63 (Uint63.of_Z b).

(** What the slow branch of the constructor is expected to compute. *)
Definition slow_baud_ok (b : Z) : bool :=
  match char_time b with
  | Return t0 =>
      let s := PyFloat.round (3.5 * t0) 6 in
      PrimFloat.Leibniz.eqb t0 (11 / baud b)
      && PrimFloat.ltb ms_1_75 (3.5 * t0)
      && PrimFloat.ltb ms_1_75 s
      && PrimFloat.Leibniz.eqb (PyFloat.round s 6) s
  | Raise _ => false
  end.

(** ** Further notions for the transport *)

(** Everything the line still holds for the client, in order: what is
    buffered, then the bursts to come. *)
Definition stream (s : Serial) : list Byte.byte :=
  rx s ++ concat (arrivals s).

(** The port of an open client. *)
Definition open_with (s : Serial) (w : World) : Prop :=
  socket (self w) = Some s.

(** The two timing values are in order: the inter-character timeout is
    below the silent interval, which is at least 1.75 ms. *)
Definition timing_ordered (c : t) : bool :=
  PrimFloat.ltb (inter_char_timeout c) (silent_interval c)
  && PrimFloat.leb ms_1_75 (silent_interval c).

(** The same, on the two products of the slow branch. *)
Definition slow_baud_ordered (b : Z) : bool :=
  match char_time b with
  | Return t0 =>
      PrimFloat.ltb (1.5 * t0) (PyFloat.round (3.5 * t0) 6)
      && PrimFloat.leb ms_1_75 (PyFloat.round (3.5 * t0) 6)
  | Raise _ => false
  end.

(** What [connect] meets outside the client: what [serial.serial_for_url]
    gives ([None]: it raises [SerialException]), the keyword [strict] kept
    by the base class, and what assigning [interCharTimeout] does to a
    pyserial port.  [connect] catches [SerialException] alone: any other
    exception of [serial_for_url] leaves [connect] as it is raised, and is
    not among the outcomes recorded here. *)
Record Opening := {
  serial_for_url : option Serial;
  strict : bool;
  set_interCharTimeout : float -> Serial -> Serial
}.

Definition with_last_frame_end (v : option float) (c : t) : t :=
  {| params := params c; framer := framer c; socket := socket c;
     state := state c; last_frame_end := v; _t0 := _t0 c;
     inter_char_timeout := inter_char_timeout c;
     silent_interval := silent_interval c |}.

(** [ModbusSerialClient.connect]. *)
Definition connect (env : Opening) : M bool :=
  do c <- get_self;
  match socket c with
  | Some _ => ret true
  | None =>
      match serial_for_url env with
      | Some port =>
          do _ <- put_self (with_socket (Some port) c);
          do _ <- (if is_rtu (framer c) then
                     do _ <- (if strict env then
                                do c <- get_self;
                                put_self (with_socket
                                            (option_map
                                               (set_interCharTimeout env
                                                  (inter_char_timeout c))
                                               (socket c)) c)
                              else ret tt);
                     do c <- get_self;
                     put_self (with_last_frame_end None c)
                   else ret tt);
          do c <- get_self;
          ret (match socket c with Some _ => true | None => false end)
      | None =>
          do _ <- close;
          do c <- get_self;
          ret (match socket c with Some _ => true | None => false end)
      end
  end.

(** The property [connected]. *)
Definition connected (env : Opening) : M bool := connect env.

(** The port after [data] was written, its receive buffer untouched. *)
Definition written (data : list Byte.byte) (s : Serial) : Serial :=
  {| rx := rx s; tx := tx s ++ data; arrivals := arrivals s;
     has_in_waiting := has_in_waiting s |}.

(** The port after the first [n] buffered bytes were read. *)
Definition consumed (n : nat) (s : Serial) : Serial :=
  {| rx := drop n (rx s); tx := tx s; arrivals := arrivals s;
     has_in_waiting := has_in_waiting s |}.

(** The sample port of [burst_world], that world once the polling wait has
    settled, and once the five bytes have been read. *)
Definition burst_port : Serial :=
  port_with [Byte.x01] [[Byte.x02; Byte.x03; Byte.x04; Byte.x05]].

Definition burst_world_polled : World :=
  {| self := sample_client IDLE
               (Some (port_with [Byte.x01; Byte.x02; Byte.x03; Byte.x04; Byte.x05] []));
     clock := 20 |}.

Definition burst_world_read : World :=
  {| self := sample_client IDLE (Some (port_with [] [])); clock := 20 |}.


End ModbusSerialClient.

(** * The asyncio client *)

Module AsyncModbusSerialClient.

(** Where a coroutine held by the event loop stands.  A reconnect task is
    [Created] by [asyncio.create_task], is [Sleeping] once it has run up to
    [asyncio.sleep], and then executes [connect()] like any other caller:
    [OpeningPort] while [create_serial_connection] is awaited,
    [AwaitingEvent] while [_connected_event.wait()] is. *)
Inductive Phase :=
| Created
| Sleeping (ms : Z)
| OpeningPort
| AwaitingEvent
| Finished (connected : bool)
| Cancelled.

(** A reconnect task that has not yet got past its sleep. *)
Definition pending (p : Phase) : bool :=
  match p with
  | Created | Sleeping _ => true
  | _ => false
  end.

(** A coroutine that [Task.cancel()] can still stop. *)
Definition running (p : Phase) : bool :=
  match p with
  | Finished _ | Cancelled => false
  | _ => true
  end.

(** The attributes of the client that the reconnect logic reads and
    writes; [_reconnect_task] holds the identifier of the task. *)
Record t := {
  delay_ms : Z;
  reconnect_delay_max : Z;
  _connected_event : bool;
  _reconnect_task : option nat
}.

(** What an execution leaves behind, in order. *)
Inductive Obs :=
| IgnoredLaunch                   (* the warning of [_launch_reconnect] *)
| TaskCreated (id : nat)
| TaskCancelled (id : nat)
| Slept (id : nat) (ms : Z)       (* [asyncio.sleep(ms / 1000)] returned *)
| Reconnecting (id : nat).        (* a reconnect task called [connect()] *)

(** The client inside its event loop: the coroutines of the loop by
    identifier, the number of [close()] calls suspended in their awaits,
    and the observations so far. *)
Record Loop := {
  self : t;
  tasks : list Phase;
  closing : nat;
  trace : list Obs
}.

Definition with_self (c : t) (l : Loop) : Loop :=
  {| self := c; tasks := tasks l; closing := closing l; trace := trace l |}.

Definition with_delay_ms (d : Z) (l : Loop) : Loop :=
  with_self {| delay_ms := d;
               reconnect_delay_max := reconnect_delay_max (self l);
               _connected_event := _connected_event (self l);
               _reconnect_task := _reconnect_task (self l) |} l.

Definition with_connected (b : bool) (l : Loop) : Loop :=
  with_self {| delay_ms := delay_ms (self l);
               reconnect_delay_max := reconnect_delay_max (self l);
               _connected_event := b;
               _reconnect_task := _reconnect_task (self l) |} l.

Definition with_reconnect_task (h : option nat) (l : Loop) : Loop :=
  with_self {| delay_ms := delay_ms (self l);
               reconnect_delay_max := reconnect_delay_max (self l);
               _connected_event := _connected_event (self l);
               _reconnect_task := h |} l.

Definition with_phase (id : nat) (p : Phase) (l : Loop) : Loop :=
  {| self := self l; tasks := <[id := p]> (tasks l); closing := closing l;
     trace := trace l |}.

Definition with_closing (n : nat) (l : Loop) : Loop :=
  {| self := self l; tasks := tasks l; closing := n; trace := trace l |}.

Definition observe (o : Obs) (l : Loop) : Loop :=
  {| self := self l; tasks := tasks l; closing := closing l;
     trace := trace l ++ [o] |}.

(** [asyncio.create_task(coro)]: the coroutine joins the loop and gets the
    next identifier. *)
Definition create_task (p : Phase) (l : Loop) : nat * Loop :=
  (length (tasks l),
   {| self := self l; tasks := tasks l ++ [p]; closing := closing l;
      trace := trace l |}).

(** [task.cancel()]: stops a coroutine that has not finished. *)
Definition cancel (id : nat) (l : Loop) : Loop :=
  match tasks l !! id with
  | Some p => if running p then observe (TaskCancelled id) (with_phase id Cancelled l)
              else l
  | None => l
  end.

(** Modelled from the spec: the initialiser of [ModbusBaseClient] is outside
    the sources; of what it sets, the reconnect bookkeeping starts at the
    initial delay [reconnect_delay] with ceiling [reconnect_delay_max].
    [AsyncModbusSerialClient.__init__] adds a cleared event and no task. *)
Definition init (reconnect_delay reconnect_delay_max : Z) : t :=
  {| delay_ms := reconnect_delay;
     reconnect_delay_max := reconnect_delay_max;
     _connected_event := false;
     _reconnect_task := None |}.

Definition boot (reconnect_delay reconnect_delay_max : Z) : Loop :=
  {| self := init reconnect_delay reconnect_delay_max; tasks := [];
     closing := 0; trace := [] |}.

(** The property [connected]. *)
Definition connected (l : Loop) : bool := _connected_event (self l).

(** [_launch_reconnect]. *)
Definition _launch_reconnect (l : Loop) : Loop :=
  match _reconnect_task (self l) with
  | Some _ => observe IgnoredLaunch l
  | None =>
      let (id, l) := create_task Created l in
      observe (TaskCreated id) (with_reconnect_task (Some id) l)
  end.

(** [client_made_connection]. *)
Definition client_made_connection (l : Loop) : Loop :=
  if negb (connected l) then with_connected true l else l.

(** [client_lost_connection]. *)
Definition client_lost_connection (l : Loop) : Loop :=
  let l := with_connected false l in
  if negb (delay_ms (self l) =? 0) then _launch_reconnect l else l.

(** [connect], the handler of a failed [create_serial_connection]. *)
Definition connect_except (l : Loop) : Loop :=
  if 0 <? delay_ms (self l) then _launch_reconnect l else l.

(** [_reconnect], up to the sleep. *)
Definition _reconnect_start (id : nat) (l : Loop) : Loop :=
  with_phase id (Sleeping (delay_ms (self l))) l.

(** [_reconnect], from the end of the sleep to the first suspension inside
    [connect()]. *)
Definition _reconnect_resume (id : nat) (ms : Z) (l : Loop) : Loop :=
  let l := observe (Slept id ms) l in
  let l := with_delay_ms
             (Z.min (2 * delay_ms (self l)) (reconnect_delay_max (self l))) l in
  let l := with_reconnect_task None l in
  with_phase id OpeningPort (observe (Reconnecting id) l).

(** [close], from the awaits to the end (all of it past the first
    assignment when the client is not connected). *)
Definition close_end (l : Loop) : Loop :=
  match _reconnect_task (self l) with
  | Some id => with_reconnect_task None (cancel id l)
  | None => l
  end.

(** [close], up to its first suspension.  What [transport.close()] and
    [async_close()] of the base class do to this client reaches it as a
    connection-lost notification. *)
Definition close_begin (l : Loop) : Loop :=
  let l := with_delay_ms 0 l in
  if connected l then with_closing (S (closing l)) l
  else close_end l.

(** What the event loop can run next. *)
Inductive Event :=
| UserConnect              (* some caller awaits [connect()] *)
| UserClose                (* some caller awaits [close()] *)
| CloseResumes             (* a suspended [close()] is past its awaits *)
| MadeConnection           (* notification: connection established *)
| LostConnection           (* notification: connection lost *)
| TaskStarts (id : nat)    (* a created reconnect task gets its first turn *)
| SleepEnds (id : nat)     (* the sleep of a reconnect task is over *)
| PortFails (id : nat)     (* [create_serial_connection] raised *)
| PortOpens (id : nat)     (* [create_serial_connection] returned *)
| EventSeen (id : nat).    (* [_connected_event.wait()] returned *)

(** One atomic segment; an event that is not enabled changes nothing. *)
Definition step (e : Event) (l : Loop) : Loop :=
  match e with
  | UserConnect => snd (create_task OpeningPort l)
  | UserClose => close_begin l
  | CloseResumes =>
      match closing l with
      | O => l
      | S n => close_end (with_closing n l)
      end
  | MadeConnection => client_made_connection l
  | LostConnection => client_lost_connection l
  | TaskStarts id =>
      match tasks l !! id with
      | Some Created => _reconnect_start id l
      | _ => l
      end
  | SleepEnds id =>
      match tasks l !! id with
      | Some (Sleeping ms) => _reconnect_resume id ms l
      | _ => l
      end
  | PortFails id =>
      match tasks l !! id with
      | Some OpeningPort =>
          let l := connect_except l in
          with_phase id (Finished (connected l)) l
      | _ => l
      end
  | PortOpens id =>
      match tasks l !! id with
      | Some OpeningPort =>
          if connected l then with_phase id (Finished true) l
          else with_phase id AwaitingEvent l
      | _ => l
      end
  | EventSeen id =>
      match tasks l !! id with
      | Some AwaitingEvent =>
          if connected l then with_phase id (Finished true) l else l
      | _ => l
      end
  end.

Definition run (events : list Event) (l : Loop) : Loop :=
  fold_left (fun l e => step e l) events l.

(** The observations that belong to reconnecting. *)
Definition is_reconnect_obs (o : Obs) : bool :=
  match o with
  | TaskCreated _ | Slept _ _ | Reconnecting _ => true
  | _ => false
  end.

Definition reconnect_activity (l : Loop) : list Obs :=
  List.filter is_reconnect_obs (trace l).

(** The delays slept by reconnect tasks, oldest first. *)
Definition slept_delays (l : Loop) : list Z :=
  flat_map (fun o => match o with Slept _ ms => [ms] | _ => [] end) (trace l).

(** Number of reconnect tasks waiting to make their attempt. *)
Definition pending_tasks (l : Loop) : nat :=
  length (List.filter pending (tasks l)).

(** The event [e], run in [l], is the final segment of a [close()] call. *)
Definition close_completes (e : Event) (l : Loop) : Prop :=
  (e = UserClose /\ connected l = false)
  \/ (e = CloseResumes /\ (0 < closing l)%nat).

(** The reconnect cycle in which every attempt fails: task [id] starts,
    sleeps, calls [connect()], and the port cannot be opened. *)
Definition failed_round (id : nat) : list Event :=
  [TaskStarts id; SleepEnds id; PortFails id].

Fixpoint failed_rounds (first n : nat) : list Event :=
  match n with
  | O => []
  | S n' => failed_round first ++ failed_rounds (S first) n'
  end.

(** One turn of the backoff. *)
Definition backoff (M delay : Z) : Z := Z.min (2 * delay) M.

(** The delay slept by the reconnect task that follows [n] failed
    reconnect attempts, after a connection loss on a fresh client. *)
Definition delay_after_failures (d M : Z) (n : nat) : option Z :=
  slept_delays
    (run (LostConnection :: failed_rounds 0 n ++ [TaskStarts n; SleepEnds n])
         (boot d M)) !! n.

(** ** The invariant of the reconnect bookkeeping

    The handle [_reconnect_task] names exactly the reconnect tasks that are
    still waiting to make their attempt. *)
Definition handle_tracks_pending (l : Loop) : Prop :=
  (forall id p, tasks l !! id = Some p -> pending p = true ->
                _reconnect_task (self l) = Some id)
  /\ (forall id, _reconnect_task (self l) = Some id ->
                 exists p, tasks l !! id = Some p /\ pending p = true).

(** While a [close()] is suspended the delay stays zeroed, the ceiling
    being non-negative. *)
Definition zeroed_while_closing (l : Loop) : Prop :=
  (0 < closing l)%nat -> delay_ms (self l) = 0.

(** Nothing is left that could start a reconnect: no delay, no handle, no
    waiting task. *)
Definition quiescent (l : Loop) : Prop :=
  handle_tracks_pending l
  /\ delay_ms (self l) = 0
  /\ _reconnect_task (self l) = None.



End AsyncModbusSerialClient.

(** * Theorems *)

(** ** Dispatch *)

Section Dispatch.
Import ModbusClientMixin.

(** C5: on the unextended dispatch base, [execute] raises the protocol
    error for every request and returns no response. *)
Theorem execute_unextended_raises (self : ModbusClientMixin.t)
    (request : ModbusRequest) :
  execute self request = Raise (ModbusException INTERNAL_ERROR)
  /\ (forall response : ModbusResponse, execute self request <> Return response).
Proof. split; [reflexivity|]. intros response. discriminate. Qed.

(** The convenience operations only build a request and hand it to
    [execute]; on the unextended base they fail the same way. *)
Lemma operations_unextended_raise (self : ModbusClientMixin.t)
    (address count value slave : Z) (coil : bool) (msg : list Byte.byte) :
  Forall (fun r => r = Raise (ModbusException INTERNAL_ERROR))
    [read_coils self address count slave;
     read_discrete_inputs self address count slave;
     read_holding_registers self address count slave;
     read_input_registers self address count slave;
     write_coil self address coil slave;
     write_register self address value slave;
     read_exception_status self slave;
     diag_query_data self msg slave].
Proof. repeat constructor. Qed.

End Dispatch.

(** ** Timing governor *)

Section SilentInterval.
Import ModbusSerialClient.

Lemma forall_from_spec (f : Z -> bool) (n : nat) :
  forall lo, forall_from f lo n = true ->
  forall b, lo <= b < lo + Z.of_nat n -> f b = true.
Proof.
  induction n as [|n IH]; intros lo Hall b Hb; [lia|].
  cbn [forall_from] in Hall. apply andb_prop in Hall as [Hlo Hrest].
  destruct (Z.eq_dec b lo) as [->|Hne]; [exact Hlo|].
  apply (IH (lo + 1) Hrest). lia.
Qed.

Lemma slow_bauds_checked :
  forall_from slow_baud_ok 1 (Z.to_nat 19200) = true.
Proof. vm_compute. reflexivity. Qed.

Lemma slow_baud (b : Z) :
  0 < b <= 19200 ->
  let s := PyFloat.round (3.5 * (11 / baud b)) 6 in
  char_time b = Return (11 / baud b)%float
  /\ PrimFloat.ltb ms_1_75 (3.5 * (11 / baud b)) = true
  /\ PrimFloat.ltb ms_1_75 s = true
  /\ PyFloat.round s 6 = s.
Proof.
  intros Hb.
  pose proof (forall_from_spec _ _ _ slow_bauds_checked b) as Hok.
  assert (Hin : 1 <= b < 1 + Z.of_nat (Z.to_nat 19200)) by lia.
  specialize (Hok Hin). unfold slow_baud_ok in Hok.
  destruct (char_time b) as [t0|e]; [|discriminate].
  repeat (apply andb_prop in Hok as [Hok ?]).
  apply FloatAxioms.Leibniz.eqb_spec in Hok. subst t0.
  cbv zeta. repeat split; try assumption.
  now apply FloatAxioms.Leibniz.eqb_spec.
Qed.

Lemma fast_silent_interval : PyFloat.round (1.75 / 1000) 6 = ms_1_75.
Proof. vm_compute. reflexivity. Qed.

Lemma ms_1_75_decimal : PyFloat.nearest_double 175 100000 = ms_1_75.
Proof. vm_compute. reflexivity. Qed.

Lemma ms_1_75_rounded : PyFloat.microsecond_precision ms_1_75.
Proof. vm_compute. reflexivity. Qed.

(** C1: an RTU client built with baud rate [b > 0] stores a silent
    interval of exactly 1.75 ms when [b > 19200]; when [b <= 19200] it
    stores [3.5 * (11 / b)] rounded to six decimals and an inter-character
    timeout of [1.5 * (11 / b)], and that silent interval is also
    [max(1.75 ms, 3.5 * char-time)], rounded before or after the [max]. *)
Theorem init_rtu_timing (port : string) (b bytesize : Z) (parity : string)
    (stopbits : Z) (echo : bool) (timeout : option Z) :
  0 < b ->
  exists c,
    init port ModbusRtuFramer b bytesize parity stopbits echo timeout = Return c
    /\ (19200 < b -> silent_interval c = ms_1_75)
    /\ (b <= 19200 ->
        let t := (11 / baud b)%float in
        silent_interval c = PyFloat.round (3.5 * t) 6
        /\ inter_char_timeout c = (1.5 * t)%float
        /\ silent_interval c = PyFloat.round (PyFloat.max ms_1_75 (3.5 * t)) 6
        /\ silent_interval c = PyFloat.max ms_1_75 (PyFloat.round (3.5 * t) 6)).
Proof.
  intros Hpos. unfold init. cbn [is_rtu].
  destruct (19200 <? b) eqn:Hfast.
  - apply Z.ltb_lt in Hfast. eexists. split; [reflexivity|].
    cbn [silent_interval inter_char_timeout].
    split; [intros _; exact fast_silent_interval | lia].
  - apply Z.ltb_ge in Hfast.
    destruct (slow_baud b (conj Hpos Hfast)) as (Ht0 & Hlt & Hlts & _).
    rewrite Ht0. eexists. split; [reflexivity|].
    cbn [silent_interval inter_char_timeout].
    split; [lia|]. intros _. unfold PyFloat.max. rewrite Hlt, Hlts.
    repeat split.
Qed.

Lemma init_rtu_timing_witness :
  exists c,
    init "/dev/ttyUSB0" ModbusRtuFramer 9600 8 "N" 1 false None = Return c
    /\ (19200 < 9600 -> silent_interval c = ms_1_75)
    /\ (9600 <= 19200 ->
        let t := (11 / baud 9600)%float in
        silent_interval c = PyFloat.round (3.5 * t) 6
        /\ inter_char_timeout c = (1.5 * t)%float
        /\ silent_interval c = PyFloat.round (PyFloat.max ms_1_75 (3.5 * t)) 6
        /\ silent_interval c = PyFloat.max ms_1_75 (PyFloat.round (3.5 * t) 6)).
Proof. apply (init_rtu_timing "/dev/ttyUSB0" 9600 8 "N" 1 false None). lia. Defined.

(** C8 (as written, refuted): at 9600 baud the stored inter-character
    timeout is not a value rounded to six decimals. *)
Lemma inter_char_timeout_unrounded_9600 :
  exists c,
    init "/dev/ttyUSB0" ModbusRtuFramer 9600 8 "N" 1 false None = Return c
    /\ ~ PyFloat.microsecond_precision (inter_char_timeout c).
Proof.
  eexists. split; [vm_compute; reflexivity|].
  unfold PyFloat.microsecond_precision. intros H.
  apply (f_equal Prim2SF) in H. vm_compute in H. discriminate H.
Qed.

(** C8 (amended): of the two derived timing values of an RTU client only
    the silent interval is rounded to microsecond precision; the
    inter-character timeout is stored as the unrounded product
    [1.5 * (11 / b)] when [b <= 19200] and keeps its default [0] above. *)
Theorem init_rtu_rounding (port : string) (b bytesize : Z) (parity : string)
    (stopbits : Z) (echo : bool) (timeout : option Z) :
  0 < b ->
  exists c,
    init port ModbusRtuFramer b bytesize parity stopbits echo timeout = Return c
    /\ PyFloat.microsecond_precision (silent_interval c)
    /\ (b <= 19200 -> inter_char_timeout c = (1.5 * (11 / baud b))%float)
    /\ (19200 < b -> inter_char_timeout c = 0%float).
Proof.
  intros Hpos. unfold init. cbn [is_rtu].
  destruct (19200 <? b) eqn:Hfast.
  - apply Z.ltb_lt in Hfast. eexists. split; [reflexivity|].
    cbn [silent_interval inter_char_timeout].
    split; [|split; [lia|reflexivity]].
    rewrite fast_silent_interval. exact ms_1_75_rounded.
  - apply Z.ltb_ge in Hfast.
    destruct (slow_baud b (conj Hpos Hfast)) as (Ht0 & _ & _ & Hfix).
    rewrite Ht0. eexists. split; [reflexivity|].
    cbn [silent_interval inter_char_timeout].
    split; [exact Hfix|]. split; [reflexivity|lia].
Qed.

Lemma init_rtu_rounding_witness :
  exists c,
    init "/dev/ttyUSB0" ModbusRtuFramer 38400 8 "N" 1 false None = Return c
    /\ PyFloat.microsecond_precision (silent_interval c)
    /\ (38400 <= 19200 -> inter_char_timeout c = (1.5 * (11 / baud 38400))%float)
    /\ (19200 < 38400 -> inter_char_timeout c = 0%float).
Proof. apply (init_rtu_rounding "/dev/ttyUSB0" 38400 8 "N" 1 false None). lia. Defined.

End SilentInterval.

(** ** Blocking transport *)

Section SerialTransport.
Import ModbusSerialClient.

(** What [send] does on a closed port, whatever the inherited hook: it
    raises before looking at the payload, and its only effect is the
    hook's. *)
Lemma send_closed `{ModbusBaseClient} (request : list Byte.byte) (w : World) :
  socket (self w) = None ->
  send request w =
    Some (Raise (ConnectionException (framer (self w)) (baudrate (params (self w)))),
          {| self := with_state (super_send request (state (self w))) (self w);
             clock := clock w |}).
Proof.
  intros Hclosed. unfold send, bind, call_super_send, get_self, put_self.
  cbn. rewrite Hclosed. reflexivity.
Qed.

(** C4 (as written, refuted): the inherited hook runs before the port is
    looked at, so what it does to the transaction state is done when the
    error is raised.  Under a base class whose hook opens the transaction,
    a closed client in state Idle is in state Sending after the failed
    [send]. *)
Lemma send_closed_state_follows_hook :
  let w := {| self := sample_client IDLE None; clock := 0 |} in
  let w' := {| self := sample_client SENDING None; clock := 0 |} in
  @send sending_base [Byte.x01; Byte.x03] w =
    Some (Raise (ConnectionException ModbusRtuFramer 9600), w')
  /\ state (self w) = IDLE
  /\ state (self w') = SENDING
  /\ state (self w') <> state (self w).
Proof. repeat split. discriminate. Qed.

(** C4 (amended): on a transport whose port is not open, [send] raises
    the connection error for every payload and every inherited hook.  There
    is still no port afterwards, so nothing was written; the clock has not
    moved; the transaction state is the one the hook returned, [send] adding
    no transition of its own; and no other attribute of the client has
    changed. *)
Theorem send_closed_raises_before_io `{ModbusBaseClient}
    (request : list Byte.byte) (w : World) :
  socket (self w) = None ->
  exists w',
    send request w =
      Some (Raise (ConnectionException (framer (self w)) (baudrate (params (self w)))), w')
    /\ socket (self w') = None
    /\ clock w' = clock w
    /\ state (self w') = super_send request (state (self w))
    /\ with_state (state (self w)) (self w') = self w.
Proof.
  intros Hclosed. eexists. split; [exact (send_closed request w Hclosed)|].
  destruct w as [c clk]. destruct c as [p f so st lfe t0 ict si].
  cbn in Hclosed |- *. now subst so.
Qed.

Lemma send_closed_raises_before_io_witness :
  exists w',
    @send sending_base [Byte.x01; Byte.x03]
      {| self := sample_client RETRYING None; clock := 7 |} =
      Some (Raise (ConnectionException ModbusRtuFramer 9600), w')
    /\ socket (self w') = None
    /\ clock w' = 7
    /\ state (self w') = RETRYING
    /\ with_state RETRYING (self w') = sample_client RETRYING None.
Proof.
  apply (send_closed_raises_before_io (H := sending_base) [Byte.x01; Byte.x03]
           {| self := sample_client RETRYING None; clock := 7 |}).
  reflexivity.
Defined.

(** C10 (as written, refuted): with an empty payload too the inherited
    hook has run when 0 is returned.  Under a base class whose hook opens
    the transaction, an open client in state Idle is in state Sending after
    [send] of nothing, its port untouched. *)
Lemma send_empty_state_follows_hook :
  let port := port_with [Byte.x07] [] in
  let w := {| self := sample_client IDLE (Some port); clock := 5 |} in
  let w' := {| self := sample_client SENDING (Some port); clock := 5 |} in
  @send sending_base [] w = Some (Return (Int 0), w')
  /\ state (self w) = IDLE
  /\ state (self w') = SENDING
  /\ state (self w') <> state (self w).
Proof. repeat split. discriminate. Qed.

(** C10 (amended): an empty payload on an open transport makes [send]
    return 0 without any input or output, for every inherited hook: the
    port is exactly what it was (the receive buffer not drained, nothing
    written) and the clock has not moved.  The transaction state is the one
    the hook returned, [send] adding no transition of its own, and no other
    attribute of the client has changed. *)
Theorem send_empty_does_no_io `{ModbusBaseClient} (w : World) (s : Serial) :
  socket (self w) = Some s ->
  exists w',
    send [] w = Some (Return (Int 0), w')
    /\ socket (self w') = Some s
    /\ clock w' = clock w
    /\ state (self w') = super_send [] (state (self w))
    /\ with_state (state (self w)) (self w') = self w.
Proof.
  intros Hopen.
  destruct w as [c clk]. destruct c as [p f so st lfe t0 ict si].
  cbn in Hopen. subst so.
  eexists. split; [reflexivity|]. cbn. repeat split.
Qed.

Lemma send_empty_does_no_io_witness :
  exists w',
    @send sending_base []
      {| self := sample_client IDLE (Some (port_with [Byte.x07] [])); clock := 5 |} =
      Some (Return (Int 0), w')
    /\ socket (self w') = Some (port_with [Byte.x07] [])
    /\ clock w' = 5
    /\ state (self w') = SENDING
    /\ with_state IDLE (self w') = sample_client IDLE (Some (port_with [Byte.x07] [])).
Proof.
  apply (send_empty_does_no_io (H := sending_base)
           {| self := sample_client IDLE (Some (port_with [Byte.x07] [])); clock := 5 |}
           (port_with [Byte.x07] [])).
  reflexivity.
Defined.



(** The same payload in state Idle: the two stale bytes are gone, the
    payload is on the line, the state is Sending. *)
Example send_discards_stale_bytes_when_idle :
  @send inert_base [Byte.x01; Byte.x03]
    {| self := sample_client IDLE (Some (port_with [Byte.x0a; Byte.x0b] []));
       clock := 0 |}
  = Some (Return (Int 2),
          {| self := sample_client SENDING
                       (Some {| rx := []; tx := [Byte.x01; Byte.x03];
                                arrivals := []; has_in_waiting := true |});
             clock := 0 |}).
Proof. reflexivity. Qed.

(** When the caller's size exceeds what the port holds, [recv] reads the
    number of bytes the polling wait returns, not the caller's size. *)
Lemma recv_short_buffer `{ModbusBaseClient} (fuel : nat) (size : Z) (w : World) (s : Serial) :
  socket (self w) = Some s ->
  has_in_waiting s = true ->
  Z.of_nat (length (rx s)) < size ->
  recv fuel (Some size) w =
    (do _ <- call_super_recv (Some size);
     do n <- _wait_for_data fuel;
     socket_read n) w.
Proof.
  intros Hopen Hiw Hshort. apply Z.ltb_lt in Hshort.
  destruct w as [c clk]. destruct c as [p f so st lfe t0 ict si].
  cbn in Hopen. subst so. destruct s as [rxs txs arr iw].
  cbn in Hiw, Hshort. subst iw.
  unfold recv, bind, call_super_recv, get_self, put_self, ret, _in_waiting,
    socket_in_waiting.
  cbn -[Z.of_nat _wait_for_data socket_read]. rewrite Hshort. reflexivity.
Qed.

(** C9: [recv] with an explicit size can return more bytes than asked
    for.  One byte is buffered and four more are on their way; the caller
    asks for two, which is more than the port holds, so the polling wait
    runs, settles at five, and five bytes are returned. *)
Theorem recv_may_return_more_than_size `{ModbusBaseClient} :
  exists (w w' : World) (s : Serial) (size n : Z) (fuel : nat)
         (data : list Byte.byte),
    socket (self w) = Some s
    /\ Z.of_nat (length (rx s)) < size
    /\ (exists w1, _wait_for_data fuel w = Some (Return n, w1))
    /\ recv fuel (Some size) w = Some (Return data, w')
    /\ Z.of_nat (length data) = n
    /\ size < Z.of_nat (length data).
Proof.
  exists burst_world.
  eexists. exists (port_with [Byte.x01] [[Byte.x02; Byte.x03; Byte.x04; Byte.x05]]).
  exists 2, 5, 3%nat. eexists.
  split; [reflexivity|]. split; [cbn; lia|].
  split; [eexists; vm_compute; reflexivity|].
  split; [rewrite (recv_short_buffer 3 2 burst_world _ eq_refl eq_refl) by (cbn; lia);
          cbv; reflexivity|].
  split; cbn; lia.
Qed.
(** ** The polling wait returns when a timeout is configured *)



End SerialTransport.

(** ** Reconnect manager *)

Section ReconnectManager.
Import AsyncModbusSerialClient.


Lemma boot_tracks (d M : Z) : handle_tracks_pending (boot d M).
Proof.
  split.
  - intros id p Hl. cbn in Hl. now rewrite lookup_nil in Hl.
  - intros id Hh. discriminate Hh.
Qed.

(** Replacing a phase by one that is not pending, when the handle is
    cleared or already names another task. *)
Lemma tracks_settle (l : Loop) (id : nat) (p : Phase) :
  handle_tracks_pending l ->
  pending p = false ->
  (forall q, tasks l !! id = Some q -> pending q = false) ->
  handle_tracks_pending (with_phase id p l).
Proof.
  intros [Hp Hh] Hnp Hold. split; cbn.
  - intros j q Hj Hq. destruct (decide (id = j)) as [->|Hne].
    + apply list_lookup_insert_Some in Hj as [(_ & <- & _)|(? & _)]; congruence.
    + rewrite list_lookup_insert_ne in Hj by done. eauto.
  - intros j Hj. destruct (Hh j Hj) as (q & Hq & Hpq).
    exists q. split; [|done].
    rewrite list_lookup_insert_ne; [done|].
    intros ->. specialize (Hold q Hq). congruence.
Qed.

(** Retiring the task the handle names. *)
Lemma tracks_retire (l l' : Loop) (id : nat) (p : Phase) :
  handle_tracks_pending l ->
  _reconnect_task (self l) = Some id ->
  pending p = false ->
  tasks l' = <[id := p]> (tasks l) ->
  _reconnect_task (self l') = None ->
  handle_tracks_pending l'.
Proof.
  intros [Hp Hh] Hid Hnp Htasks Hnone. split; rewrite Htasks, Hnone.
  - intros j q Hj Hq. destruct (decide (id = j)) as [->|Hne].
    + apply list_lookup_insert_Some in Hj as [(_ & <- & _)|(? & _)]; congruence.
    + rewrite list_lookup_insert_ne in Hj by done.
      specialize (Hp j q Hj Hq). congruence.
  - discriminate.
Qed.

Lemma tracks_with_closing (n : nat) (l : Loop) :
  handle_tracks_pending l -> handle_tracks_pending (with_closing n l).
Proof. exact id. Qed.

Lemma tracks_launch (l : Loop) :
  handle_tracks_pending l -> handle_tracks_pending (_launch_reconnect l).
Proof.
  intros Hinv. unfold _launch_reconnect.
  destruct (_reconnect_task (self l)) as [h|] eqn:Hhandle; [exact Hinv|].
  destruct Hinv as [Hp Hh]. split; cbn.
  - intros j q Hj Hq. apply lookup_app_Some in Hj as [Hj|[Hlen Hj]].
    + specialize (Hp j q Hj Hq). congruence.
    + destruct (j - length (tasks l))%nat as [|k] eqn:Hk; [|done].
      f_equal. lia.
  - intros j [= <-]. exists Created. split; [|done].
    apply list_lookup_middle. done.
Qed.

Lemma tracks_close_end (l : Loop) :
  handle_tracks_pending l -> handle_tracks_pending (close_end l).
Proof.
  intros Hinv. unfold close_end.
  destruct (_reconnect_task (self l)) as [h|] eqn:Hhandle; [|done].
  destruct (proj2 Hinv h Hhandle) as (q & Hq & Hpq).
  unfold cancel. rewrite Hq.
  replace (running q) with true by (now destruct q).
  now apply (tracks_retire l _ h Cancelled).
Qed.

Lemma tracks_user_connect (l : Loop) :
  handle_tracks_pending l -> handle_tracks_pending (snd (create_task OpeningPort l)).
Proof.
  intros [Hp Hh]. split; cbn.
  - intros j q Hj Hq. apply lookup_app_Some in Hj as [Hj|[Hlen Hj]]; [eauto|].
    destruct (j - length (tasks l))%nat; [|done].
    injection Hj as <-. discriminate.
  - intros j Hj. destruct (Hh j Hj) as (q & Hq & Hpq). exists q.
    split; [|done]. now apply lookup_app_l_Some.
Qed.

(** Two lookups at one index give one phase. *)
Ltac same_phase Hid Hq :=
  rewrite Hid in Hq; injection Hq as <-; reflexivity.

(** Every atomic segment keeps the invariant. *)
Lemma step_tracks (e : Event) (l : Loop) :
  handle_tracks_pending l -> handle_tracks_pending (step e l).
Proof.
  intros Hinv. destruct e as [ | | | | |id|id|id|id|id]; cbn [step].
  - now apply tracks_user_connect.
  - unfold close_begin.
    destruct (connected (with_delay_ms 0 l));
      [apply tracks_with_closing | apply tracks_close_end]; done.
  - destruct (closing l); [done|]. now apply tracks_close_end.
  - unfold client_made_connection. now destruct (negb (connected l)).
  - unfold client_lost_connection.
    destruct (negb _); [apply tracks_launch|]; done.
  - destruct (tasks l !! id) as [[]|] eqn:Hid; try done.
    unfold _reconnect_start. destruct Hinv as [Hp Hh]. split; cbn.
    + intros j q Hj Hq. destruct (decide (id = j)) as [->|Hne].
      * now apply (Hp j Created).
      * rewrite list_lookup_insert_ne in Hj by done. eauto.
    + intros j Hj. pose proof (Hp id Created Hid eq_refl) as Hh'.
      assert (j = id) as -> by congruence.
      exists (Sleeping (delay_ms (self l))). split; [|reflexivity].
      apply list_lookup_insert_eq. now apply lookup_lt_Some in Hid.
  - destruct (tasks l !! id) as [[]|] eqn:Hid; try done.
    unfold _reconnect_resume.
    apply (tracks_retire l _ id OpeningPort); try done.
    now apply (proj1 Hinv id (Sleeping ms)).
  - destruct (tasks l !! id) as [[]|] eqn:Hid; try done.
    assert (Hinv' : handle_tracks_pending (connect_except l)).
    { unfold connect_except. destruct (0 <? _); [apply tracks_launch|]; done. }
    apply tracks_settle; [done|done|].
    intros q Hq. unfold connect_except, _launch_reconnect in Hq.
    destruct (0 <? _); [|same_phase Hid Hq].
    destruct (_reconnect_task (self l)); cbn in Hq; [same_phase Hid Hq|].
    rewrite lookup_app_l in Hq by (now apply lookup_lt_Some in Hid).
    same_phase Hid Hq.
  - destruct (tasks l !! id) as [[]|] eqn:Hid; try done.
    destruct (connected l);
      (apply tracks_settle; [done|done|intros q Hq; same_phase Hid Hq]).
  - destruct (tasks l !! id) as [[]|] eqn:Hid; try done.
    destruct (connected l); [|done].
    apply tracks_settle; [done|done|intros q Hq; same_phase Hid Hq].
Qed.

Lemma run_tracks (es : list Event) (l : Loop) :
  handle_tracks_pending l -> handle_tracks_pending (run es l).
Proof.
  revert l. induction es as [|e es IH]; intros l Hinv; [done|].
  cbn. apply IH. now apply step_tracks.
Qed.

(** Phases that all sit at one index are at most one. *)
Lemma filter_pending_unique (ps : list Phase) :
  (forall i j p q, ps !! i = Some p -> ps !! j = Some q ->
                   pending p = true -> pending q = true -> i = j) ->
  (length (List.filter pending ps) <= 1)%nat.
Proof.
  induction ps as [|p ps IH]; intros Huniq; cbn; [lia|].
  destruct (pending p) eqn:Hp.
  - assert (Hnone : List.filter pending ps = []).
    { destruct (List.filter pending ps) as [|q qs] eqn:Hf; [done|].
      assert (Hq : List.In q (List.filter pending ps)) by (rewrite Hf; now left).
      apply filter_In in Hq as [Hin Hpq].
      apply list_elem_of_In, list_elem_of_lookup in Hin as [j Hj].
      specialize (Huniq 0%nat (S j) p q eq_refl Hj Hp Hpq). discriminate. }
    rewrite Hnone. cbn. lia.
  - apply IH. intros i j p' q' Hi Hj Hp' Hq'.
    specialize (Huniq (S i) (S j) p' q' Hi Hj Hp' Hq'). lia.
Qed.

Lemma tracks_at_most_one (l : Loop) :
  handle_tracks_pending l -> (pending_tasks l <= 1)%nat.
Proof.
  intros [Hp _]. apply filter_pending_unique.
  intros i j p q Hi Hj Hpi Hpj.
  pose proof (Hp i p Hi Hpi). pose proof (Hp j q Hj Hpj). congruence.
Qed.

(** C6: in every state the asynchronous client can reach, at most one
    reconnect task is waiting to make its attempt; and when a task is
    pending, a further launch request creates no task and keeps the handle:
    it only logs the warning.  In particular a connection-loss notification
    that asks for a reconnect leaves the tasks unchanged. *)
Theorem at_most_one_pending_reconnect (d M : Z) (events : list Event) :
  let l := run events (boot d M) in
  (pending_tasks l <= 1)%nat
  /\ (forall id, _reconnect_task (self l) = Some id ->
        _launch_reconnect l = observe IgnoredLaunch l
        /\ tasks (step LostConnection l) = tasks l
        /\ _reconnect_task (self (step LostConnection l)) = Some id
        /\ (pending_tasks (step LostConnection l) <= 1)%nat
        /\ (delay_ms (self l) <> 0 ->
            trace (step LostConnection l) = trace l ++ [IgnoredLaunch])).
Proof.
  intros l.
  assert (Hinv : handle_tracks_pending l) by apply run_tracks, boot_tracks.
  split; [now apply tracks_at_most_one|].
  intros id Hid.
  assert (Hlaunch : forall l', _reconnect_task (self l') = Some id ->
                               _launch_reconnect l' = observe IgnoredLaunch l').
  { intros l' Hl'. unfold _launch_reconnect. now rewrite Hl'. }
  split; [now apply Hlaunch|].
  cbn [step]. unfold client_lost_connection.
  rewrite (Hlaunch (with_connected false l)) by done.
  destruct (delay_ms (self (with_connected false l)) =? 0) eqn:Hd; cbn.
  - repeat split; try done.
    + now apply tracks_at_most_one.
    + apply Z.eqb_eq in Hd. cbn in Hd. congruence.
  - repeat split; try done. now apply tracks_at_most_one.
Qed.

(** Pending is what the code means by it: a delayed attempt not yet
    made.  A reconnect task that is inside [connect()] has cleared the
    handle; a connection loss at that moment creates the next task, so two
    reconnect coroutines can be alive, one of them pending. *)
Example task_inside_connect_is_not_pending :
  let l := run [LostConnection; TaskStarts 0; SleepEnds 0; LostConnection]
               (boot 100 300000) in
  tasks l = [OpeningPort; Created] /\ pending_tasks l = 1%nat.
Proof. split; reflexivity. Qed.

(** ** After [close()] *)

Lemma step_delay_max (e : Event) (l : Loop) :
  reconnect_delay_max (self (step e l)) = reconnect_delay_max (self l).
Proof.
  assert (Hlaunch : forall l', reconnect_delay_max (self (_launch_reconnect l'))
                               = reconnect_delay_max (self l')).
  { intros l'. unfold _launch_reconnect. now destruct (_reconnect_task (self l')). }
  assert (Hclose : forall l', reconnect_delay_max (self (close_end l'))
                              = reconnect_delay_max (self l')).
  { intros l'. unfold close_end, cancel.
    destruct (_reconnect_task (self l')) as [h|]; [|done]. cbn.
    destruct (tasks l' !! h) as [q|]; [|done]. now destruct (running q). }
  destruct e as [ | | | | |id|id|id|id|id]; cbn [step]; try done.
  - unfold close_begin. destruct (connected _); [done|]. now rewrite Hclose.
  - destruct (closing l); [done|]. now rewrite Hclose.
  - unfold client_made_connection. now destruct (negb _).
  - unfold client_lost_connection. destruct (negb _); [|done]. now rewrite Hlaunch.
  - now destruct (tasks l !! id) as [[]|].
  - now destruct (tasks l !! id) as [[]|].
  - destruct (tasks l !! id) as [[]|]; try done. cbn.
    unfold connect_except. destruct (0 <? _); [|done]. now rewrite Hlaunch.
  - destruct (tasks l !! id) as [[]|]; try done. now destruct (connected l).
  - destruct (tasks l !! id) as [[]|]; try done. now destruct (connected l).
Qed.

Lemma run_delay_max (es : list Event) (l : Loop) :
  reconnect_delay_max (self (run es l)) = reconnect_delay_max (self l).
Proof.
  revert l. induction es as [|e es IH]; intros l; [done|].
  cbn. now rewrite IH, step_delay_max.
Qed.

Lemma close_end_delay (l : Loop) :
  delay_ms (self (close_end l)) = delay_ms (self l)
  /\ closing (close_end l) = closing l.
Proof.
  unfold close_end, cancel. destruct (_reconnect_task (self l)) as [h|]; [|done].
  cbn. destruct (tasks l !! h) as [q|]; [|done]. now destruct (running q).
Qed.

Lemma launch_delay (l : Loop) :
  delay_ms (self (_launch_reconnect l)) = delay_ms (self l)
  /\ closing (_launch_reconnect l) = closing l.
Proof. unfold _launch_reconnect. now destruct (_reconnect_task (self l)). Qed.

Lemma step_zeroed (e : Event) (l : Loop) :
  0 <= reconnect_delay_max (self l) ->
  zeroed_while_closing l -> zeroed_while_closing (step e l).
Proof.
  intros HM Hz. unfold zeroed_while_closing in *.
  destruct e as [ | | | | |id|id|id|id|id]; cbn [step]; try done.
  - unfold close_begin. destruct (connected _); [done|].
    destruct (close_end_delay (with_delay_ms 0 l)) as [-> _]. done.
  - destruct (closing l) as [|n] eqn:Hn; [lia|].
    destruct (close_end_delay (with_closing n l)) as [-> ->]. cbn.
    intros _. apply Hz. lia.
  - unfold client_made_connection. now destruct (negb _).
  - unfold client_lost_connection. destruct (negb _); [|done].
    destruct (launch_delay (with_connected false l)) as [-> ->]. done.
  - now destruct (tasks l !! id) as [[]|].
  - destruct (tasks l !! id) as [[]|]; try done. cbn.
    intros Hc. rewrite (Hz Hc). lia.
  - destruct (tasks l !! id) as [[]|]; try done. cbn.
    unfold connect_except. destruct (0 <? _); [|done].
    destruct (launch_delay l) as [-> ->]. done.
  - destruct (tasks l !! id) as [[]|]; try done. now destruct (connected l).
  - destruct (tasks l !! id) as [[]|]; try done. now destruct (connected l).
Qed.

Lemma run_zeroed (es : list Event) (l : Loop) :
  0 <= reconnect_delay_max (self l) ->
  zeroed_while_closing l -> zeroed_while_closing (run es l).
Proof.
  revert l. induction es as [|e es IH]; intros l HM Hz; [done|].
  cbn. apply IH; [now rewrite step_delay_max | now apply step_zeroed].
Qed.

Lemma quiescent_no_pending (l : Loop) (id : nat) (p : Phase) :
  quiescent l -> tasks l !! id = Some p -> pending p = false.
Proof.
  intros ([Hp _] & _ & Hnone) Hid. destruct (pending p) eqn:Hpp; [|done].
  specialize (Hp id p Hid Hpp). congruence.
Qed.

Lemma step_quiescent (e : Event) (l : Loop) :
  quiescent l ->
  quiescent (step e l) /\ reconnect_activity (step e l) = reconnect_activity l.
Proof.
  intros Hq. pose proof Hq as (Hinv & Hd & Hnone).
  assert (Hclose : close_end l = l) by (unfold close_end; now rewrite Hnone).
  split.
  - split; [now apply step_tracks|].
    destruct e as [ | | | | |id|id|id|id|id]; cbn [step]; try done.
    + unfold close_begin. destruct (connected _); [done|].
      unfold close_end. cbn. now rewrite Hnone.
    + destruct (closing l); [done|]. unfold close_end. cbn. now rewrite Hnone.
    + unfold client_made_connection. now destruct (negb _).
    + unfold client_lost_connection. cbn. rewrite Hd. done.
    + destruct (tasks l !! id) as [[]|] eqn:Hid; try done;
        now pose proof (quiescent_no_pending l id _ Hq Hid).
    + destruct (tasks l !! id) as [[]|] eqn:Hid; try done;
        now pose proof (quiescent_no_pending l id _ Hq Hid).
    + destruct (tasks l !! id) as [[]|]; try done.
      unfold connect_except. rewrite Hd. done.
    + destruct (tasks l !! id) as [[]|]; try done. now destruct (connected l).
    + destruct (tasks l !! id) as [[]|]; try done. now destruct (connected l).
  - destruct e as [ | | | | |id|id|id|id|id]; cbn [step]; try done.
    + unfold close_begin. destruct (connected _); [done|].
      unfold close_end. cbn. now rewrite Hnone.
    + destruct (closing l); [done|]. unfold close_end. cbn. now rewrite Hnone.
    + unfold client_made_connection. now destruct (negb _).
    + unfold client_lost_connection. cbn. rewrite Hd. done.
    + now destruct (tasks l !! id) as [[]|] eqn:Hid.
    + destruct (tasks l !! id) as [[]|] eqn:Hid; try done;
        now pose proof (quiescent_no_pending l id _ Hq Hid).
    + destruct (tasks l !! id) as [[]|]; try done.
      unfold connect_except. rewrite Hd. done.
    + destruct (tasks l !! id) as [[]|]; try done. now destruct (connected l).
    + destruct (tasks l !! id) as [[]|]; try done. now destruct (connected l).
Qed.

Lemma run_quiescent (es : list Event) (l : Loop) :
  quiescent l ->
  quiescent (run es l) /\ reconnect_activity (run es l) = reconnect_activity l.
Proof.
  revert l. induction es as [|e es IH]; intros l Hq; [done|].
  change (run (e :: es) l) with (run es (step e l)).
  destruct (step_quiescent e l Hq) as [Hq' Heq].
  destruct (IH _ Hq') as [Hq'' Heq']. split; [done|congruence].
Qed.

(** The last segment of [close()] cancels the task the handle names and
    clears the handle. *)
Lemma close_end_cancels (l : Loop) :
  handle_tracks_pending l ->
  _reconnect_task (self (close_end l)) = None
  /\ (forall id, _reconnect_task (self l) = Some id ->
                 tasks (close_end l) !! id = Some Cancelled).
Proof.
  intros Hinv. unfold close_end.
  destruct (_reconnect_task (self l)) as [h|] eqn:Hh; [|done].
  split; [done|]. intros id [= <-].
  destruct (proj2 Hinv h Hh) as (q & Hq & Hpq).
  unfold cancel. rewrite Hq.
  replace (running q) with true by (now destruct q). cbn.
  apply list_lookup_insert_eq. now apply lookup_lt_Some in Hq.
Qed.

(** The last segment of [close()] touches no coroutine but the task the
    handle names: one that is past its sleep, inside [connect()] or over,
    stays as it is. *)
Lemma close_end_keeps_others (l : Loop) (id : nat) (p : Phase) :
  handle_tracks_pending l ->
  tasks l !! id = Some p ->
  pending p = false ->
  tasks (close_end l) !! id = Some p.
Proof.
  intros Hinv Hid Hp. unfold close_end.
  destruct (_reconnect_task (self l)) as [h|] eqn:Hh; [|exact Hid].
  destruct (proj2 Hinv h Hh) as (q & Hq & Hpq).
  unfold cancel. rewrite Hq.
  replace (running q) with true by (now destruct q). cbn.
  rewrite list_lookup_insert_ne; [exact Hid|].
  intros ->. rewrite Hq in Hid. injection Hid as ->. congruence.
Qed.

(** C7 (as written, refuted), in two executions.

    With the default delays: the connection is lost, reconnect task 0
    sleeps its 100 ms and enters [connect()], clearing the handle on its
    way.  [close()] then runs to its end and finds no handle, so it cancels
    nothing; task 0 is still opening the port.  The port opens, the
    connection is made, and the reconnect attempt ends with the closed
    client connected.

    With a negative ceiling: a reconnect task that wakes while [close()]
    is suspended replaces the zeroed delay by [min(0, -1)]; after [close()]
    has completed a connection loss creates a reconnect task, which sleeps
    and calls [connect()]. *)
Lemma reconnect_outlives_close :
  (let l1 := run [LostConnection; TaskStarts 0; SleepEnds 0] (boot 100 300000) in
   let l2 := step UserClose l1 in
   let l3 := run [PortOpens 0; MadeConnection; EventSeen 0] l2 in
   close_completes UserClose l1
   /\ trace l1 = [TaskCreated 0; Slept 0 100; Reconnecting 0]
   /\ tasks l2 = [OpeningPort]
   /\ connected l2 = false
   /\ tasks l3 = [Finished true]
   /\ connected l3 = true)
  /\ (let l1 := run [LostConnection; TaskStarts 0; UserConnect; PortOpens 1;
                     MadeConnection; UserClose; SleepEnds 0] (boot 100 (-1)) in
      let l2 := step CloseResumes l1 in
      let l3 := run [LostConnection; TaskStarts 2; SleepEnds 2] l2 in
      close_completes CloseResumes l1
      /\ delay_ms (self l2) = -1
      /\ reconnect_activity l3
         = reconnect_activity l2 ++ [TaskCreated 2; Slept 2 (-1); Reconnecting 2]).
Proof.
  split.
  - repeat split. left. split; reflexivity.
  - repeat split. right. split; [reflexivity|cbn; lia].
Qed.

(** C7 (amended): once [close()] has completed on the asynchronous
    client, the ceiling of the delay being non-negative, the delay is zero,
    the handle is cleared and the task it named is cancelled, while every
    coroutine that is not a waiting reconnect task (one already inside
    [connect()] among them) is left as it was.  From then on, whatever
    happens, no reconnect task is created, none sleeps and none calls
    [connect()], and neither a connection-loss notification nor a failed
    [connect()] changes the tasks. *)
Theorem no_new_reconnect_after_close (d M : Z) (before : list Event) (e : Event) :
  0 <= M ->
  close_completes e (run before (boot d M)) ->
  let l1 := run before (boot d M) in
  let l2 := step e l1 in
  delay_ms (self l2) = 0
  /\ _reconnect_task (self l2) = None
  /\ (forall id, _reconnect_task (self l1) = Some id ->
                 tasks l2 !! id = Some Cancelled)
  /\ (forall id p, tasks l1 !! id = Some p -> pending p = false ->
                   tasks l2 !! id = Some p)
  /\ (forall after : list Event,
        let l3 := run after l2 in
        reconnect_activity l3 = reconnect_activity l2
        /\ tasks (client_lost_connection l3) = tasks l3
        /\ tasks (connect_except l3) = tasks l3).
Proof.
  intros HM Hclose l1 l2.
  assert (Hinv1 : handle_tracks_pending l1) by apply run_tracks, boot_tracks.
  assert (Hz1 : zeroed_while_closing l1).
  { apply run_zeroed; [exact HM|].
    unfold zeroed_while_closing, boot. cbn. lia. }
  assert (Hq2 : quiescent l2
                /\ (forall id, _reconnect_task (self l1) = Some id ->
                               tasks l2 !! id = Some Cancelled)
                /\ (forall id p, tasks l1 !! id = Some p -> pending p = false ->
                                 tasks l2 !! id = Some p)).
  { subst l2. destruct Hclose as [[-> Hconn]|[-> Hc]]; cbn [step].
    - unfold close_begin.
      replace (connected (with_delay_ms 0 l1)) with false by done.
      destruct (close_end_cancels (with_delay_ms 0 l1) Hinv1) as [Hnone Hcan].
      split; [|split; [exact Hcan|]].
      + split; [now apply tracks_close_end|].
        split; [|exact Hnone].
        now destruct (close_end_delay (with_delay_ms 0 l1)) as [-> _].
      + intros id p Hid Hp.
        exact (close_end_keeps_others (with_delay_ms 0 l1) id p Hinv1 Hid Hp).
    - change (0 < closing l1)%nat in Hc.
      destruct (closing l1) as [|n] eqn:Hn; [lia|].
      destruct (close_end_cancels (with_closing n l1) Hinv1) as [Hnone Hcan].
      split; [|split; [exact Hcan|]].
      + split; [now apply tracks_close_end|].
        split; [|exact Hnone].
        destruct (close_end_delay (with_closing n l1)) as [-> _]. cbn.
        apply Hz1. lia.
      + intros id p Hid Hp.
        exact (close_end_keeps_others (with_closing n l1) id p Hinv1 Hid Hp). }
  destruct Hq2 as (Hq2 & Hcan & Hkeep).
  split; [apply Hq2|]. split; [apply Hq2|]. split; [exact Hcan|].
  split; [exact Hkeep|].
  intros after l3.
  destruct (run_quiescent after l2 Hq2) as [Hq3 Hact].
  split; [exact Hact|].
  destruct Hq3 as (_ & Hd3 & _). change (run after l2) with l3 in Hd3.
  unfold client_lost_connection, connect_except.
  cbn [with_connected with_self self delay_ms]. now rewrite Hd3.
Qed.

Lemma no_new_reconnect_after_close_witness :
  let l1 := run [LostConnection; TaskStarts 0] (boot 100 300000) in
  let l2 := step UserClose l1 in
  delay_ms (self l2) = 0
  /\ _reconnect_task (self l2) = None
  /\ (forall id, _reconnect_task (self l1) = Some id ->
                 tasks l2 !! id = Some Cancelled)
  /\ (forall id p, tasks l1 !! id = Some p -> pending p = false ->
                   tasks l2 !! id = Some p)
  /\ (forall after : list Event,
        let l3 := run after l2 in
        reconnect_activity l3 = reconnect_activity l2
        /\ tasks (client_lost_connection l3) = tasks l3
        /\ tasks (connect_except l3) = tasks l3).
Proof.
  apply (no_new_reconnect_after_close 100 300000 [LostConnection; TaskStarts 0] UserClose).
  - lia.
  - left. split; reflexivity.
Defined.

(** ** Backoff over consecutive failures *)

Lemma slept_delays_observe (o : Obs) (l : Loop) :
  slept_delays (observe o l)
  = slept_delays l ++ match o with Slept _ ms => [ms] | _ => [] end.
Proof.
  unfold slept_delays, observe. cbn [trace].
  rewrite flat_map_app. cbn. now rewrite app_nil_r.
Qed.

(** What the end of a sleep does, step by step. *)
Lemma sleep_ends (l : Loop) (id : nat) (ms : Z) :
  tasks l !! id = Some (Sleeping ms) ->
  let l' := step (SleepEnds id) l in
  trace l' = trace l ++ [Slept id ms; Reconnecting id]
  /\ delay_ms (self l') = backoff (reconnect_delay_max (self l)) (delay_ms (self l))
  /\ _reconnect_task (self l') = None
  /\ tasks l' = <[id := OpeningPort]> (tasks l).
Proof.
  intros Hid. cbn [step]. rewrite Hid. unfold _reconnect_resume. cbn.
  rewrite <- app_assoc. done.
Qed.








(** The first sleep is the initial delay whatever the ceiling: the
    minimum with the ceiling is taken when the delay is doubled, not
    before. *)
Lemma first_sleep_is_initial_delay (d M : Z) :
  d <> 0 -> delay_after_failures d M 0 = Some d.
Proof.
  intros Hd. unfold delay_after_failures. cbn.
  unfold client_lost_connection. cbn.
  replace (d =? 0) with false by (symmetry; now apply Z.eqb_neq).
  reflexivity.
Qed.

End ReconnectManager.

(** * Further properties of the code *)

(** ** Blocking transport: [send] *)

Section SendBehaviour.
Import ModbusSerialClient.
(** A port that does not implement [in_waiting] makes the drain raise
    [NotImplementedError]; [send] swallows it, enters Sending and writes
    the payload, the receive buffer untouched. *)
Theorem send_without_in_waiting `{ModbusBaseClient} (request : list Byte.byte) (w : World)
    (s : Serial) :
  socket (self w) = Some s ->
  has_in_waiting s = false ->
  request <> [] ->
  send request w =
    Some (Return (Int (Z.of_nat (length request))),
          {| self := with_state SENDING
                       (with_socket (Some (written request s)) (self w));
             clock := clock w |}).
Proof.
  intros Hopen Hiw Hreq.
  destruct request as [|r0 request]; [contradiction|].
  destruct w as [c clk]. destruct c as [p f so st lfe t0 ict si].
  cbn in Hopen. subst so. destruct s as [rxs txs arr iw]. cbn in Hiw. subst iw.
  unfold send, bind, call_super_send, get_self, put_self,
    try_except_NotImplementedError, _in_waiting, socket_in_waiting, raise.
  cbn -[Z.of_nat].
  destruct (super_send (r0 :: request) st); cbn -[Z.of_nat]; reflexivity.
Qed.

Lemma send_without_in_waiting_witness :
  @send inert_base [Byte.x01; Byte.x03]
    {| self := sample_client RETRYING
                 (Some {| rx := [Byte.x0a]; tx := []; arrivals := [];
                          has_in_waiting := false |});
       clock := 0 |}
  = Some (Return (Int 2),
          {| self := sample_client SENDING
                       (Some {| rx := [Byte.x0a]; tx := [Byte.x01; Byte.x03];
                                arrivals := []; has_in_waiting := false |});
             clock := 0 |}).
Proof.
  apply (@send_without_in_waiting inert_base [Byte.x01; Byte.x03]
           {| self := sample_client RETRYING
                        (Some {| rx := [Byte.x0a]; tx := []; arrivals := [];
                                 has_in_waiting := false |});
              clock := 0 |}
           {| rx := [Byte.x0a]; tx := []; arrivals := [];
              has_in_waiting := false |});
    [reflexivity|reflexivity|discriminate].
Defined.

(** With nothing in the receive buffer a non-empty payload is written in
    every state, Retrying included, and the state ends as Sending. *)
Theorem send_on_empty_buffer `{ModbusBaseClient} (request : list Byte.byte) (w : World)
    (s : Serial) :
  socket (self w) = Some s ->
  has_in_waiting s = true ->
  rx s = [] ->
  request <> [] ->
  send request w =
    Some (Return (Int (Z.of_nat (length request))),
          {| self := with_state SENDING
                       (with_socket (Some (written request s)) (self w));
             clock := clock w |}).
Proof.
  intros Hopen Hiw Hrx Hreq.
  destruct request as [|r0 request]; [contradiction|].
  destruct w as [c clk]. destruct c as [p f so st lfe t0 ict si].
  cbn in Hopen. subst so. destruct s as [rxs txs arr iw].
  cbn in Hiw, Hrx. subst iw rxs.
  unfold send, bind, call_super_send, get_self, put_self,
    try_except_NotImplementedError, _in_waiting, socket_in_waiting, raise.
  cbn -[Z.of_nat].
  destruct (super_send (r0 :: request) st); cbn -[Z.of_nat]; reflexivity.
Qed.

Lemma send_on_empty_buffer_witness :
  @send inert_base [Byte.x01; Byte.x03]
    {| self := sample_client RETRYING (Some (port_with [] [])); clock := 0 |}
  = Some (Return (Int 2),
          {| self := sample_client SENDING
                       (Some {| rx := []; tx := [Byte.x01; Byte.x03];
                                arrivals := []; has_in_waiting := true |});
             clock := 0 |}).
Proof.
  apply (@send_on_empty_buffer inert_base [Byte.x01; Byte.x03]
           {| self := sample_client RETRYING (Some (port_with [] [])); clock := 0 |}
           (port_with [] []));
    [reflexivity|reflexivity|reflexivity|discriminate].
Defined.

(** On an open port [send] never raises, never sleeps and never gives up
    the port: it returns a value, the clock stands where it stood, the
    bursts to come are untouched, and the line carries what it carried,
    followed by the payload or by nothing. *)
Theorem send_frame `{ModbusBaseClient} (request : list Byte.byte) (w : World) (s : Serial) :
  socket (self w) = Some s ->
  exists v w' s',
    send request w = Some (Return v, w')
    /\ socket (self w') = Some s'
    /\ clock w' = clock w
    /\ arrivals s' = arrivals s
    /\ (tx s' = tx s \/ tx s' = tx s ++ request)
    /\ params (self w') = params (self w)
    /\ silent_interval (self w') = silent_interval (self w)
    /\ inter_char_timeout (self w') = inter_char_timeout (self w).
Proof.
  intros Hopen.
  destruct w as [c clk]. destruct c as [p f so st lfe t0 ict si].
  cbn in Hopen. subst so. destruct s as [rxs txs arr iw].
  destruct request as [|r0 request].
  - do 3 eexists. split; [reflexivity|]. cbn. repeat split. now left.
  - unfold send, bind, call_super_send, get_self, put_self,
      try_except_NotImplementedError, _in_waiting, socket_in_waiting, raise.
    cbn -[Z.of_nat Z.to_nat].
    destruct iw; cbn -[Z.of_nat Z.to_nat].
    + destruct (Z.of_nat (length rxs) =? 0) eqn:Hlen; cbn -[Z.of_nat Z.to_nat].
      * destruct (super_send (r0 :: request) st); cbn -[Z.of_nat];
          (do 3 eexists; split; [reflexivity|]; cbn; repeat split; now right).
      * destruct (super_send (r0 :: request) st); cbn -[Z.of_nat Z.to_nat];
          (do 3 eexists; split; [reflexivity|]; cbn; repeat split;
           first [now left | now right]).
    + destruct (super_send (r0 :: request) st); cbn -[Z.of_nat];
        (do 3 eexists; split; [reflexivity|]; cbn; repeat split; now right).
Qed.

Lemma send_frame_witness :
  exists v w' s',
    @send inert_base [Byte.x01] burst_world = Some (Return v, w')
    /\ socket (self w') = Some s'
    /\ clock w' = clock burst_world
    /\ arrivals s' = arrivals (port_with [Byte.x01]
                                 [[Byte.x02; Byte.x03; Byte.x04; Byte.x05]])
    /\ (tx s' = tx (port_with [Byte.x01]
                      [[Byte.x02; Byte.x03; Byte.x04; Byte.x05]])
        \/ tx s' = tx (port_with [Byte.x01]
                         [[Byte.x02; Byte.x03; Byte.x04; Byte.x05]]) ++ [Byte.x01])
    /\ params (self w') = params (self burst_world)
    /\ silent_interval (self w') = silent_interval (self burst_world)
    /\ inter_char_timeout (self w') = inter_char_timeout (self burst_world).
Proof.
  apply (@send_frame inert_base [Byte.x01] burst_world
           (port_with [Byte.x01] [[Byte.x02; Byte.x03; Byte.x04; Byte.x05]])).
  reflexivity.
Defined.

End SendBehaviour.

(** ** Blocking transport: [recv] and the polling wait *)

Section RecvBehaviour.
Import ModbusSerialClient.

Lemma deliver_stream (s : Serial) : stream (deliver s) = stream s.
Proof.
  unfold deliver, stream. destruct (arrivals s) as [|burst later] eqn:Ha;
    [now rewrite Ha|].
  cbn. now rewrite <- app_assoc.
Qed.

Lemma deliver_keeps (s : Serial) :
  has_in_waiting (deliver s) = has_in_waiting s
  /\ tx (deliver s) = tx s
  /\ (length (rx s) <= length (rx (deliver s)))%nat.
Proof.
  unfold deliver. destruct (arrivals s); cbn; repeat split; try lia.
  rewrite length_app. lia.
Qed.

(** What the polling loop keeps, whenever it returns: the port stays
    open, only its buffer and pending bursts change, the stream is the
    same, and the size handed back is covered by the buffer. *)
Lemma wait_loop_keeps (fuel : nat) :
  forall (start size : Z) (more_data : bool) (w w' : World) (s : Serial)
         (r : result Z),
  socket (self w) = Some s ->
  has_in_waiting s = true ->
  0 <= size <= Z.of_nat (length (rx s)) ->
  wait_loop fuel start size more_data w = Some (r, w') ->
  exists n s',
    r = Return n
    /\ socket (self w') = Some s'
    /\ has_in_waiting s' = true
    /\ 0 <= n <= Z.of_nat (length (rx s'))
    /\ stream s' = stream s
    /\ tx s' = tx s
    /\ with_socket (Some s) (self w') = self w
    /\ clock w <= clock w'.
Proof.
  induction fuel as [|fuel IH];
    intros start size more_data w w' s r Hopen Hiw Hsize Hrun; [discriminate|].
  destruct w as [c clk]. destruct c as [p f so st lfe t0 ict si].
  cbn in Hopen. subst so.
  cbn [wait_loop] in Hrun.
  unfold bind at 1 2, get_self, time_time in Hrun. cbn [self clock params] in Hrun.
  assert (Hstop : forall v, @ret Z size v = Some (r, w') ->
            v = {| self := {| params := p; framer := f; socket := Some s;
                             state := st; last_frame_end := lfe; _t0 := t0;
                             inter_char_timeout := ict; silent_interval := si |};
                   clock := clk |} ->
            exists n s',
              r = Return n /\ socket (self w') = Some s'
              /\ has_in_waiting s' = true
              /\ 0 <= n <= Z.of_nat (length (rx s'))
              /\ stream s' = stream s /\ tx s' = tx s
              /\ with_socket (Some s) (self w')
                 = {| params := p; framer := f; socket := Some s; state := st;
                      last_frame_end := lfe; _t0 := t0;
                      inter_char_timeout := ict; silent_interval := si |}
              /\ clk <= clock w').
  { intros v Hv ->. injection Hv as <- <-. exists size, s. cbn.
    repeat split; try done; lia. }
  match type of Hrun with
  | (if ?cond then _ else _) _ = _ => destruct cond
  end; [|now apply (Hstop _ Hrun)].
  unfold bind at 1, _in_waiting, get_self in Hrun. unfold bind at 1 in Hrun.
  cbn [self socket] in Hrun. unfold socket_in_waiting in Hrun.
  rewrite Hiw in Hrun. unfold ret at 1 in Hrun.
  set (available := Z.of_nat (length (rx s))) in *.
  destruct (more_data && (available =? 0) || more_data && (available =? size));
    [now apply (Hstop _ Hrun)|].
  unfold bind at 1, time_sleep_10ms in Hrun. cbn [self socket clock option_map] in Hrun.
  destruct (deliver_keeps s) as (Hiw' & Htx' & Hlen').
  apply (IH _ _ _ _ _ (deliver s)) in Hrun; cbn; try done.
  - destruct Hrun as (n & s' & -> & Hopen' & Hiw'' & Hn & Hstream & Htx & Hself & Hclk).
    exists n, s'. cbn in Hself, Hclk.
    rewrite deliver_stream in Hstream. rewrite Htx' in Htx.
    repeat split; try done; try lia.
    destruct w' as [c' clk']. destruct c'.
    unfold with_socket in Hself |- *. cbn in Hself |- *.
    injection Hself as -> -> -> -> -> -> ->. reflexivity.
  - congruence.
  - destruct (negb (available =? 0) && negb (available =? size)); subst available; lia.
Qed.

(** The world after the inherited [recv] hook ran. *)
Lemma recv_unfold `{ModbusBaseClient} (fuel : nat) (size : option Z) (w : World) :
  recv fuel size w =
    (let w0 := {| self := with_state (super_recv size (state (self w))) (self w);
                  clock := clock w |} in
     match socket (self w) with
     | None =>
         Some (Raise (ConnectionException (framer (self w))
                        (baudrate (params (self w)))), w0)
     | Some _ =>
         (do size <- match size with
                     | None => _wait_for_data fuel
                     | Some n => ret n
                     end;
          do waiting <- _in_waiting;
          do size <- (if waiting <? size then _wait_for_data fuel else ret size);
          socket_read size) w0
     end).
Proof.
  destruct w as [c clk]. destruct c as [p f so st lfe t0 ict si].
  unfold recv, bind at 1 2, call_super_recv, get_self, put_self, bind at 1.
  cbn [self socket state clock with_state]. destruct so; reflexivity.
Qed.

(** [recv] on a port that is not open raises the connection error,
    whatever the size asked for, before any polling: no fuel is used and
    the clock does not move. *)
Theorem recv_closed_raises `{ModbusBaseClient} (fuel : nat) (size : option Z)
    (w : World) :
  socket (self w) = None ->
  recv fuel size w =
    Some (Raise (ConnectionException (framer (self w)) (baudrate (params (self w)))),
          {| self := with_state (super_recv size (state (self w))) (self w);
             clock := clock w |}).
Proof. intros Hclosed. rewrite recv_unfold, Hclosed. reflexivity. Qed.

Lemma recv_closed_raises_witness :
  @recv inert_base 0 None {| self := sample_client IDLE None; clock := 7 |}
  = Some (Raise (ConnectionException ModbusRtuFramer 9600),
          {| self := sample_client IDLE None; clock := 7 |}).
Proof.
  apply (@recv_closed_raises inert_base 0 None
           {| self := sample_client IDLE None; clock := 7 |}).
  reflexivity.
Defined.

(** Once [close] has run, [send] and [recv] raise the connection error,
    whatever the client was before; and closing a second time changes
    nothing. *)
Theorem closed_client_refuses `{ModbusBaseClient} (w : World)
    (request : list Byte.byte) (fuel : nat) (size : option Z) :
  let closed := {| self := with_socket None (self w); clock := clock w |} in
  close w = Some (Return tt, closed)
  /\ close closed = Some (Return tt, closed)
  /\ (do _ <- close; send request) w =
       Some (Raise (ConnectionException (framer (self w)) (baudrate (params (self w)))),
             {| self := with_state (super_send request (state (self w)))
                          (with_socket None (self w));
                clock := clock w |})
  /\ (do _ <- close; recv fuel size) w =
       Some (Raise (ConnectionException (framer (self w)) (baudrate (params (self w)))),
             {| self := with_state (super_recv size (state (self w)))
                          (with_socket None (self w));
                clock := clock w |}).
Proof.
  destruct w as [c clk]. destruct c as [p f so st lfe t0 ict si].
  cbv zeta. split; [reflexivity|]. split; [reflexivity|].
  split; [reflexivity|].
  unfold bind at 1. unfold close at 1, bind, get_self, put_self.
  cbn [self clock]. rewrite recv_unfold. reflexivity.
Qed.



(** [recv] does not catch what [send] catches: on a port that does not
    implement [in_waiting] it raises [NotImplementedError], for every size,
    and reads nothing. *)
Theorem recv_without_in_waiting `{ModbusBaseClient} (fuel : nat)
    (size : option Z) (w : World) (s : Serial) :
  socket (self w) = Some s ->
  has_in_waiting s = false ->
  recv (S fuel) size w =
    Some (Raise NotImplementedError,
          {| self := with_state (super_recv size (state (self w))) (self w);
             clock := clock w |}).
Proof.
  intros Hopen Hiw. rewrite recv_unfold, Hopen. cbv zeta.
  destruct w as [c clk]. destruct c as [p f so st lfe t0 ict si].
  cbn in Hopen. subst so. destruct s as [rxs txs arr iw]. cbn in Hiw. subst iw.
  destruct size as [n|].
  - reflexivity.
  - unfold bind at 1, _wait_for_data, bind at 1, time_time.
    cbn [wait_loop]. unfold bind at 1 2, get_self, time_time.
    cbn [self clock params with_state].
    match goal with
    | |- context [if ?cond then _ else _] => destruct cond
    end; reflexivity.
Qed.

Lemma recv_without_in_waiting_witness :
  @recv inert_base 1 None
    {| self := sample_client IDLE
                 (Some {| rx := [Byte.x0a]; tx := []; arrivals := [];
                          has_in_waiting := false |});
       clock := 0 |}
  = Some (Raise NotImplementedError,
          {| self := sample_client IDLE
                       (Some {| rx := [Byte.x0a]; tx := []; arrivals := [];
                                has_in_waiting := false |});
             clock := 0 |}).
Proof.
  apply (@recv_without_in_waiting inert_base 0 None
           {| self := sample_client IDLE
                        (Some {| rx := [Byte.x0a]; tx := []; arrivals := [];
                                 has_in_waiting := false |});
              clock := 0 |}
           {| rx := [Byte.x0a]; tx := []; arrivals := [];
              has_in_waiting := false |});
    reflexivity.
Defined.

Lemma wait_for_data_keeps (fuel : nat) (w w' : World) (s : Serial)
    (r : result Z) :
  socket (self w) = Some s ->
  has_in_waiting s = true ->
  _wait_for_data fuel w = Some (r, w') ->
  exists n s',
    r = Return n
    /\ socket (self w') = Some s'
    /\ has_in_waiting s' = true
    /\ 0 <= n <= Z.of_nat (length (rx s'))
    /\ stream s' = stream s
    /\ tx s' = tx s
    /\ with_socket (Some s) (self w') = self w
    /\ clock w <= clock w'.
Proof.
  intros Hopen Hiw Hrun. unfold _wait_for_data, bind at 1, time_time in Hrun.
  apply (wait_loop_keeps fuel _ _ _ _ _ s _ Hopen Hiw) in Hrun; [exact Hrun|lia].
Qed.

(** Whenever the polling wait returns on a port that answers
    [in_waiting], it returns a size between 0 and the number of bytes then
    buffered: the read that follows never asks for more than the port
    holds.  The port stays open and nothing of the stream is lost. *)
Theorem wait_for_data_bounded (fuel : nat) (w w' : World)
    (s : Serial) (r : result Z) :
  socket (self w) = Some s ->
  has_in_waiting s = true ->
  _wait_for_data fuel w = Some (r, w') ->
  exists n s',
    r = Return n
    /\ socket (self w') = Some s'
    /\ has_in_waiting s' = true
    /\ 0 <= n <= Z.of_nat (length (rx s'))
    /\ stream s' = stream s
    /\ tx s' = tx s
    /\ with_socket (Some s) (self w') = self w
    /\ clock w <= clock w'.
Proof. exact (wait_for_data_keeps fuel w w' s r). Qed.

Lemma wait_for_data_bounded_witness :
  exists n s',
    Return 5 = Return n
    /\ socket (self burst_world_polled) = Some s'
    /\ has_in_waiting s' = true
    /\ 0 <= n <= Z.of_nat (length (rx s'))
    /\ stream s' = stream burst_port
    /\ tx s' = tx burst_port
    /\ with_socket (Some burst_port) (self burst_world_polled) = self burst_world
    /\ clock burst_world <= clock burst_world_polled.
Proof.
  apply (wait_for_data_bounded 3 burst_world burst_world_polled burst_port
           (Return 5)); reflexivity.
Defined.

Lemma socket_read_open (n : Z) (w : World) (s : Serial) :
  socket (self w) = Some s ->
  socket_read n w =
    Some (Return (take (Z.to_nat n) (rx s)),
          {| self := with_socket (Some (consumed (Z.to_nat n) s)) (self w);
             clock := clock w |}).
Proof.
  intros Hopen. unfold socket_read, bind, get_self, put_self, ret.
  now rewrite Hopen.
Qed.

Lemma consumed_stream (n : nat) (s : Serial) :
  take n (rx s) ++ stream (consumed n s) = stream s.
Proof. unfold stream, consumed. cbn. now rewrite app_assoc, take_drop. Qed.

(** The bytes [recv] returns are the front of the stream, in order, and
    what it leaves is the rest: nothing is dropped, repeated or reordered,
    however the bursts arrive and whatever size is asked for.  On a port
    that answers [in_waiting], [recv] raises nothing and writes nothing. *)
Theorem recv_keeps_stream `{ModbusBaseClient} (fuel : nat) (size : option Z)
    (w w' : World) (s : Serial) (r : result (list Byte.byte)) :
  socket (self w) = Some s ->
  has_in_waiting s = true ->
  recv fuel size w = Some (r, w') ->
  exists data s',
    r = Return data
    /\ socket (self w') = Some s'
    /\ data ++ stream s' = stream s
    /\ tx s' = tx s.
Proof.
  intros Hopen Hiw Hrun. rewrite recv_unfold, Hopen in Hrun. cbv zeta in Hrun.
  set (w0 := {| self := with_state (super_recv size (state (self w))) (self w);
                clock := clock w |}) in *.
  assert (Hopen0 : socket (self w0) = Some s) by exact Hopen.
  assert (Hin : forall v t, socket (self v) = Some t -> has_in_waiting t = true ->
                  _in_waiting v = Some (Return (Z.of_nat (length (rx t))), v)).
  { intros v t Hv Ht. unfold _in_waiting, bind, get_self, socket_in_waiting.
    now rewrite Hv, Ht. }
  assert (Hfinish : forall v t n, socket (self v) = Some t ->
            has_in_waiting t = true -> stream t = stream s -> tx t = tx s ->
            (do waiting <- _in_waiting;
             do size <- (if waiting <? n then _wait_for_data fuel else ret n);
             socket_read size) v = Some (r, w') ->
            exists data s',
              r = Return data /\ socket (self w') = Some s'
              /\ data ++ stream s' = stream s /\ tx s' = tx s).
  { intros v t n Hv Ht Hst Htx Hgo. unfold bind at 1 in Hgo.
    rewrite (Hin v t Hv Ht) in Hgo.
    destruct (Z.of_nat (length (rx t)) <? n).
    - unfold bind at 1 in Hgo.
      destruct (_wait_for_data fuel v) as [[r1 v1]|] eqn:Hwait; [|discriminate].
      destruct (wait_for_data_keeps fuel v v1 t r1 Hv Ht Hwait)
        as (m & t1 & -> & Hv1 & _ & _ & Hst1 & Htx1 & _).
      rewrite (socket_read_open m v1 t1 Hv1) in Hgo. injection Hgo as <- <-.
      do 2 eexists. split; [reflexivity|]. split; [reflexivity|].
      rewrite consumed_stream. split; cbn; congruence.
    - unfold bind at 1, ret at 1 in Hgo.
      rewrite (socket_read_open n v t Hv) in Hgo. injection Hgo as <- <-.
      do 2 eexists. split; [reflexivity|]. split; [reflexivity|].
      rewrite consumed_stream. split; cbn; congruence. }
  destruct size as [k|].
  - unfold bind at 1, ret at 1 in Hrun.
    now apply (Hfinish w0 s k Hopen0 Hiw).
  - unfold bind at 1 in Hrun.
    destruct (_wait_for_data fuel w0) as [[r1 v1]|] eqn:Hwait; [|discriminate].
    destruct (wait_for_data_keeps fuel w0 v1 s r1 Hopen0 Hiw Hwait)
      as (m & t1 & -> & Hv1 & Hiw1 & _ & Hst1 & Htx1 & _).
    now apply (Hfinish v1 t1 m Hv1 Hiw1).
Qed.

Lemma recv_keeps_stream_witness :
  exists data s',
    Return [Byte.x01; Byte.x02; Byte.x03; Byte.x04; Byte.x05] = Return data
    /\ socket (self burst_world_read) = Some s'
    /\ data ++ stream s' = stream burst_port
    /\ tx s' = tx burst_port.
Proof.
  apply (@recv_keeps_stream inert_base 3 (Some 2) burst_world burst_world_read
           burst_port
           (Return [Byte.x01; Byte.x02; Byte.x03; Byte.x04; Byte.x05]));
    reflexivity.
Defined.


(** ** A line that stays silent *)








End RecvBehaviour.

(** ** The constructor and [connect] *)

Section Lifecycle.
Import ModbusSerialClient.

Lemma slow_bauds_ordered :
  forall_from slow_baud_ordered 1 (Z.to_nat 19200) = true.
Proof. vm_compute. reflexivity. Qed. (* exhaustive *)

(** Whatever the baud rate, the inter-character timeout of an RTU client
    is below its silent interval, and the silent interval is never below
    1.75 ms. *)
Theorem init_rtu_timing_ordered (port : string) (b bytesize : Z)
    (parity : string) (stopbits : Z) (echo : bool) (timeout : option Z) :
  0 < b ->
  exists c,
    init port ModbusRtuFramer b bytesize parity stopbits echo timeout = Return c
    /\ PrimFloat.ltb (inter_char_timeout c) (silent_interval c) = true
    /\ PrimFloat.leb ms_1_75 (silent_interval c) = true.
Proof.
  intros Hpos. unfold init. cbn [is_rtu].
  destruct (19200 <? b) eqn:Hfast.
  - eexists. split; [reflexivity|]. cbn [silent_interval inter_char_timeout].
    rewrite fast_silent_interval. split; vm_compute; reflexivity.
  - apply Z.ltb_ge in Hfast.
    pose proof (forall_from_spec _ _ _ slow_bauds_ordered b ltac:(lia)) as Hok.
    unfold slow_baud_ordered in Hok.
    destruct (char_time b) as [t0|e]; [|discriminate].
    apply andb_prop in Hok as [Hlt Hle].
    eexists. split; [reflexivity|]. cbn [silent_interval inter_char_timeout].
    now split.
Qed.

Lemma init_rtu_timing_ordered_witness :
  exists c,
    init "/dev/ttyUSB0" ModbusRtuFramer 9600 8 "N" 1 false None = Return c
    /\ PrimFloat.ltb (inter_char_timeout c) (silent_interval c) = true
    /\ PrimFloat.leb ms_1_75 (silent_interval c) = true.
Proof. apply (init_rtu_timing_ordered "/dev/ttyUSB0" 9600 8 "N" 1 false None). lia. Defined.

(** What every constructed client looks like. *)
Lemma init_fresh (port : string) (framer : Framer) (b bytesize : Z)
    (parity : string) (stopbits : Z) (echo : bool) (timeout : option Z) (c : t) :
  init port framer b bytesize parity stopbits echo timeout = Return c ->
  socket c = None /\ state c = IDLE /\ ModbusSerialClient.framer c = framer
  /\ baudrate (params c) = b
  /\ (is_rtu framer = false ->
      silent_interval c = 0%float /\ inter_char_timeout c = 0%float).
Proof.
  unfold init. destruct (is_rtu framer) eqn:Hrtu.
  - destruct (19200 <? b).
    + intros [= <-]. cbn. repeat split; discriminate.
    + destruct (char_time b); [|discriminate].
      intros [= <-]. cbn. repeat split; discriminate.
  - intros [= <-]. cbn. repeat split.
Qed.

(** For a baud rate that is not negative the constructor raises in one
    case only: an RTU framer with baud rate 0, where the character time
    divides by zero.  Any other framer accepts every such baud rate and
    leaves both timing values at 0. *)
Theorem init_raises_on_zero_baud_only (port : string) (framer : Framer)
    (b bytesize : Z) (parity : string) (stopbits : Z) (echo : bool)
    (timeout : option Z) :
  0 <= b ->
  (framer = ModbusRtuFramer /\ b = 0
   /\ init port framer b bytesize parity stopbits echo timeout
      = Raise ZeroDivisionError)
  \/ (~ (framer = ModbusRtuFramer /\ b = 0)
      /\ exists c,
           init port framer b bytesize parity stopbits echo timeout = Return c
           /\ socket c = None /\ state c = IDLE
           /\ (framer <> ModbusRtuFramer ->
               silent_interval c = 0%float /\ inter_char_timeout c = 0%float)).
Proof.
  intros Hb. destruct (Z.eq_dec b 0) as [->|Hnz].
  - destruct framer.
    + left. repeat split.
    + right. split; [intros [? _]; discriminate|].
      eexists. split; [reflexivity|]. cbn. repeat split.
    + right. split; [intros [? _]; discriminate|].
      eexists. split; [reflexivity|]. cbn. repeat split.
  - right. split; [intros [_ ?]; contradiction|].
    destruct framer.
    + assert (Hc : exists c, init port ModbusRtuFramer b bytesize parity
                                stopbits echo timeout = Return c).
      { unfold init. cbn [is_rtu]. destruct (19200 <? b) eqn:Hfast; [eauto|].
        apply Z.ltb_ge in Hfast.
        destruct (slow_baud b ltac:(lia)) as (-> & _). eauto. }
      destruct Hc as [c Hc]. exists c. split; [exact Hc|].
      destruct (init_fresh _ _ _ _ _ _ _ _ _ Hc) as (? & ? & _).
      repeat split; try done.
    + eexists. split; [reflexivity|]. cbn. repeat split.
    + eexists. split; [reflexivity|]. cbn. repeat split.
Qed.

Lemma init_raises_on_zero_baud_only_witness :
  (ModbusRtuFramer = ModbusRtuFramer /\ 0 = 0
   /\ init "/dev/ttyUSB0" ModbusRtuFramer 0 8 "N" 1 false None
      = Raise ZeroDivisionError)
  \/ (~ (ModbusRtuFramer = ModbusRtuFramer /\ 0 = 0)
      /\ exists c,
           init "/dev/ttyUSB0" ModbusRtuFramer 0 8 "N" 1 false None = Return c
           /\ socket c = None /\ state c = IDLE
           /\ (ModbusRtuFramer <> ModbusRtuFramer ->
               silent_interval c = 0%float /\ inter_char_timeout c = 0%float)).
Proof.
  apply (init_raises_on_zero_baud_only "/dev/ttyUSB0" ModbusRtuFramer 0 8 "N" 1
           false None). lia.
Defined.

(** A client fresh from the constructor is not connected: until [connect]
    has opened the port, [send] and [recv] raise the connection error. *)
Theorem fresh_client_refuses `{ModbusBaseClient} (port : string)
    (framer : Framer) (b bytesize : Z) (parity : string) (stopbits : Z)
    (echo : bool) (timeout : option Z) (c : t) (now : Z)
    (request : list Byte.byte) (fuel : nat) (size : option Z) :
  init port framer b bytesize parity stopbits echo timeout = Return c ->
  send request {| self := c; clock := now |} =
    Some (Raise (ConnectionException framer b),
          {| self := with_state (super_send request IDLE) c; clock := now |})
  /\ recv fuel size {| self := c; clock := now |} =
    Some (Raise (ConnectionException framer b),
          {| self := with_state (super_recv size IDLE) c; clock := now |}).
Proof.
  intros Hinit.
  destruct (init_fresh _ _ _ _ _ _ _ _ _ Hinit) as (Hso & Hst & Hfr & Hbd & _).
  split.
  - rewrite send_closed by exact Hso. cbn. now rewrite Hst, Hfr, Hbd.
  - rewrite recv_unfold. cbn [self clock]. now rewrite Hso, Hst, Hfr, Hbd.
Qed.

Lemma fresh_client_refuses_witness :
  let c := {| params := sample_params; framer := ModbusAsciiFramer;
              socket := None; state := IDLE; last_frame_end := None;
              _t0 := None; inter_char_timeout := 0; silent_interval := 0 |} in
  @send inert_base [Byte.x01] {| self := c; clock := 0 |} =
    Some (Raise (ConnectionException ModbusAsciiFramer 9600),
          {| self := with_state IDLE c; clock := 0 |})
  /\ @recv inert_base 0 None {| self := c; clock := 0 |} =
    Some (Raise (ConnectionException ModbusAsciiFramer 9600),
          {| self := with_state IDLE c; clock := 0 |}).
Proof.
  apply (@fresh_client_refuses inert_base "/dev/ttyUSB0" ModbusAsciiFramer 9600 8
           "N" 1 false (Some 3000)).
  reflexivity.
Defined.

(** Once [connect] has opened the port, connecting again returns [True]
    without opening anything: the client and its port are what they were,
    even when the device could no longer be opened. *)
Theorem connect_is_idempotent (env env' : Opening) (w : World) (port : Serial) :
  socket (self w) = None ->
  serial_for_url env = Some port ->
  exists w',
    connect env w = Some (Return true, w')
    /\ socket (self w')
       = Some (if is_rtu (framer (self w)) && strict env
               then set_interCharTimeout env (inter_char_timeout (self w)) port
               else port)
    /\ (do _ <- connect env; connect env') w = Some (Return true, w')
    /\ connected env' w' = Some (Return true, w').
Proof.
  intros Hclosed Hport.
  destruct w as [c clk]. destruct c as [p f so st lfe t0 ict si].
  cbn in Hclosed. subst so.
  unfold connected, connect, bind, get_self, put_self, ret. cbn. rewrite Hport.
  destruct (is_rtu f), (strict env); cbn;
    (eexists; split; [reflexivity|]; cbn; repeat split).
Qed.

Lemma connect_is_idempotent_witness :
  exists w',
    connect {| serial_for_url := Some burst_port; strict := true;
               set_interCharTimeout := fun _ s => s |}
      {| self := sample_client IDLE None; clock := 0 |}
    = Some (Return true, w')
    /\ socket (self w')
       = Some (if is_rtu (framer (sample_client IDLE None)) && true
               then (fun _ s => s) (inter_char_timeout (sample_client IDLE None))
                      burst_port
               else burst_port)
    /\ (do _ <- connect {| serial_for_url := Some burst_port; strict := true;
                           set_interCharTimeout := fun _ s => s |};
        connect {| serial_for_url := None; strict := true;
                   set_interCharTimeout := fun _ s => s |})
         {| self := sample_client IDLE None; clock := 0 |}
       = Some (Return true, w')
    /\ connected {| serial_for_url := None; strict := true;
                    set_interCharTimeout := fun _ s => s |} w'
       = Some (Return true, w').
Proof.
  apply (connect_is_idempotent
           {| serial_for_url := Some burst_port; strict := true;
              set_interCharTimeout := fun _ s => s |}
           {| serial_for_url := None; strict := true;
              set_interCharTimeout := fun _ s => s |}
           {| self := sample_client IDLE None; clock := 0 |} burst_port);
    reflexivity.
Defined.

End Lifecycle.

(** ** The reconnect manager over whole executions *)

Section ReconnectBehaviour.
Import AsyncModbusSerialClient.

Lemma no_handle_no_pending (l : Loop) :
  handle_tracks_pending l ->
  _reconnect_task (self l) = None ->
  pending_tasks l = 0%nat.
Proof.
  intros [Hp _] Hnone. unfold pending_tasks.
  destruct (List.filter pending (tasks l)) as [|q qs] eqn:Hf; [reflexivity|].
  assert (Hq : List.In q (List.filter pending (tasks l))) by (rewrite Hf; now left).
  apply filter_In in Hq as [Hin Hpq].
  apply list_elem_of_In, list_elem_of_lookup in Hin as [j Hj].
  specialize (Hp j q Hj Hpq). congruence.
Qed.

(** In every reachable state the handle [_reconnect_task] tells what is
    waiting: a task of the loop is a reconnect task that has not finished
    its sleep exactly when the handle names it. *)
Theorem handle_names_the_pending_task (d M : Z) (events : list Event)
    (id : nat) (p : Phase) :
  let l := run events (boot d M) in
  (tasks l !! id = Some p ->
   (pending p = true <-> _reconnect_task (self l) = Some id))
  /\ (_reconnect_task (self l) = Some id -> (id < length (tasks l))%nat)
  /\ (_reconnect_task (self l) = None -> pending_tasks l = 0%nat).
Proof.
  intros l.
  assert (Hinv : handle_tracks_pending l) by apply run_tracks, boot_tracks.
  split; [|split]; [| |now apply no_handle_no_pending].
  - destruct Hinv as [Hp Hh]. intros Hid. split; [now apply Hp|].
    intros Hhandle. destruct (Hh id Hhandle) as (q & Hq & Hpq). congruence.
  - destruct Hinv as [Hp Hh].
    intros Hhandle. destruct (Hh id Hhandle) as (q & Hq & _).
    now apply lookup_lt_Some in Hq.
Qed.

(** An initial delay of 0 switches reconnecting off for good: whatever
    happens, and whatever the ceiling, no reconnect task is ever created,
    and the delay stays 0. *)
Theorem zero_delay_disables_reconnect (M : Z) (events : list Event) :
  let l := run events (boot 0 M) in
  trace l = []
  /\ delay_ms (self l) = 0
  /\ _reconnect_task (self l) = None
  /\ pending_tasks l = 0%nat.
Proof.
  intros l.
  assert (Hq0 : quiescent (boot 0 M)) by (split; [apply boot_tracks|done]).
  assert (Htrace : forall es l0, quiescent l0 -> trace (run es l0) = trace l0).
  { induction es as [|e es IH]; intros l0 Hl0; [done|].
    change (run (e :: es) l0) with (run es (step e l0)).
    destruct (step_quiescent e l0 Hl0) as [Hq' _]. rewrite (IH _ Hq').
    destruct Hl0 as (Hinv & Hd & Hnone).
    destruct e as [ | | | | |id|id|id|id|id]; cbn [step]; try done.
    - unfold close_begin. destruct (connected _); [done|].
      unfold close_end. cbn. now rewrite Hnone.
    - destruct (closing l0); [done|]. unfold close_end. cbn. now rewrite Hnone.
    - unfold client_made_connection. now destruct (negb _).
    - unfold client_lost_connection. cbn. now rewrite Hd.
    - now destruct (tasks l0 !! id) as [[]|].
    - destruct (tasks l0 !! id) as [[]|] eqn:Hid; try done.
      now pose proof (quiescent_no_pending l0 id _
                        (conj Hinv (conj Hd Hnone)) Hid).
    - destruct (tasks l0 !! id) as [[]|]; try done.
      unfold connect_except. now rewrite Hd.
    - destruct (tasks l0 !! id) as [[]|]; try done. now destruct (connected l0).
    - destruct (tasks l0 !! id) as [[]|]; try done. now destruct (connected l0). }
  destruct (run_quiescent events _ Hq0) as [(Hinv & Hd & Hnone) _].
  split; [now apply Htrace|]. split; [exact Hd|]. split; [exact Hnone|].
  now apply no_handle_no_pending.
Qed.

Lemma step_delay_cases (e : Event) (l : Loop) :
  delay_ms (self (step e l)) = delay_ms (self l)
  \/ delay_ms (self (step e l)) = 0
  \/ delay_ms (self (step e l))
     = backoff (reconnect_delay_max (self l)) (delay_ms (self l)).
Proof.
  destruct e as [ | | | | |id|id|id|id|id]; cbn [step]; try (now left).
  - right. left. unfold close_begin. destruct (connected _); [done|].
    now destruct (close_end_delay (with_delay_ms 0 l)) as [-> _].
  - left. destruct (closing l) as [|n]; [done|].
    now destruct (close_end_delay (with_closing n l)) as [-> _].
  - left. unfold client_made_connection. now destruct (negb _).
  - left. unfold client_lost_connection. destruct (negb _); [|done].
    now destruct (launch_delay (with_connected false l)) as [-> _].
  - left. now destruct (tasks l !! id) as [[]|].
  - destruct (tasks l !! id) as [[]|]; try (now left). right. right. reflexivity.
  - left. destruct (tasks l !! id) as [[]|]; try done. cbn.
    unfold connect_except. destruct (0 <? _); [|done].
    now destruct (launch_delay l) as [-> _].
  - left. destruct (tasks l !! id) as [[]|]; try done. now destruct (connected l).
  - left. destruct (tasks l !! id) as [[]|]; try done. now destruct (connected l).
Qed.

Lemma run_delay_bounded (d M : Z) (events : list Event) :
  0 <= d -> 0 <= M ->
  0 <= delay_ms (self (run events (boot d M))) <= Z.max d M.
Proof.
  intros Hd HM.
  assert (Hgen : forall es l, reconnect_delay_max (self l) = M ->
            0 <= delay_ms (self l) <= Z.max d M ->
            0 <= delay_ms (self (run es l)) <= Z.max d M).
  { induction es as [|e es IH]; intros l Hmax Hl; [exact Hl|].
    change (run (e :: es) l) with (run es (step e l)).
    apply IH; [now rewrite step_delay_max|].
    destruct (step_delay_cases e l) as [-> | [-> | ->]]; [exact Hl|lia|].
    rewrite Hmax. unfold backoff. lia. }
  apply Hgen; [reflexivity|]. cbn. lia.
Qed.

(** The backoff is bounded: with an initial delay and a ceiling that are
    not negative, the delay never leaves the interval from 0 to the larger
    of the two, whatever happens. *)
Theorem delay_stays_bounded (d M : Z) (events : list Event) :
  0 <= d -> 0 <= M ->
  0 <= delay_ms (self (run events (boot d M))) <= Z.max d M.
Proof. exact (run_delay_bounded d M events). Qed.

Lemma delay_stays_bounded_witness :
  0 <= delay_ms (self (run (LostConnection :: failed_rounds 0 20)
                          (boot 100 300000)))
  <= Z.max 100 300000.
Proof.
  apply (delay_stays_bounded 100 300000 (LostConnection :: failed_rounds 0 20)); lia.
Defined.

(** A ceiling of 0 does not switch reconnecting off, it allows one round:
    the first reconnect task whose sleep ends sets the delay to 0, and from
    then on no reconnect task is created, sleeps or calls [connect()]. *)
Theorem zero_ceiling_allows_one_round (d : Z) (events after : list Event)
    (id : nat) (ms : Z) :
  0 <= d ->
  tasks (run events (boot d 0)) !! id = Some (Sleeping ms) ->
  let l := step (SleepEnds id) (run events (boot d 0)) in
  delay_ms (self l) = 0
  /\ _reconnect_task (self l) = None
  /\ reconnect_activity (run after l) = reconnect_activity l.
Proof.
  intros Hd Hid l.
  set (l0 := run events (boot d 0)) in *.
  assert (Hinv : handle_tracks_pending l0) by apply run_tracks, boot_tracks.
  pose proof (run_delay_bounded d 0 events Hd ltac:(lia)) as Hb.
  fold l0 in Hb.
  assert (Hmax : reconnect_delay_max (self l0) = 0) by apply run_delay_max.
  destruct (sleep_ends l0 id ms Hid) as (_ & Hdelay & Hnone & _).
  fold l in Hdelay, Hnone.
  assert (Hzero : delay_ms (self l) = 0).
  { rewrite Hdelay, Hmax. unfold backoff. lia. }
  assert (Hq : quiescent l).
  { split; [now apply step_tracks|]. now split. }
  split; [exact Hzero|]. split; [exact Hnone|].
  now apply run_quiescent.
Qed.

Lemma zero_ceiling_allows_one_round_witness :
  let l := step (SleepEnds 0) (run [LostConnection; TaskStarts 0] (boot 100 0)) in
  delay_ms (self l) = 0
  /\ _reconnect_task (self l) = None
  /\ reconnect_activity (run [PortFails 0; LostConnection; TaskStarts 1] l)
     = reconnect_activity l.
Proof.
  apply (zero_ceiling_allows_one_round 100 [LostConnection; TaskStarts 0]
           [PortFails 0; LostConnection; TaskStarts 1] 0%nat 100);
    [lia|reflexivity].
Defined.

End ReconnectBehaviour.
